(** * scripts/plot_metrics.py: a shallow embedding and its properties

    The script reads [bench_sustained_metrics_round2.csv], turns every
    record into six typed values, and draws four line charts with
    matplotlib.  It is top-level code; the embedding keeps its order,
    statement by statement.

    What is modelled and how:
    - a Python [float] is an IEEE-754 binary64 number, [spec_float] with
      precision 53 and maximal exponent 1024, and [int / float] is the
      conversion of the integer (round to nearest even, [OverflowError]
      when out of range) followed by the binary64 division;
    - a Python [int] is a [Z];
    - a text file is the sequence of rows [csv.reader] yields for it
      (a row is the list of its fields); [csv.DictReader] is modelled on
      top of that, with its header, [restkey] and [restval] handling;
    - the process state has the files of the working directory, the
      lines printed on standard output, the stack of open pyplot figures
      and the trace of the observable calls; paths are POSIX paths;
    - an uncaught exception ends the process; the state reached so far
      is kept ([print] before [raise SystemExit(1)] stays printed);
    - an image file is represented by the figure that was saved into
      it; [plt.plot] raises [OverflowError] on an int that is beyond
      the range of a float, the other pyplot calls and the writes to
      the working directory always succeed;
    - two library functions are left abstract, because no property
      below depends on what they accept: [datetime.fromisoformat] and
      [int] on a string.  [Sample] instantiates them to run the script
      on concrete files. *)

From Stdlib Require Import ZArith String Ascii List Bool Lia SpecFloat.
From stdpp Require Import base option list strings gmap fin_maps.
Import ListNotations.

Local Open Scope Z_scope.
Local Open Scope string_scope.
Local Open Scope list_scope.

(** ** Exceptions and process exit *)

Inductive exn : Type :=
  | SystemExit (code : Z)
  | FileNotFoundError
  | UnicodeDecodeError
  | KeyError (key : string)
  | TypeError
  | ValueError
  | OverflowError
  | ZeroDivisionError.

(** The exceptions a record of the CSV file can raise in the parse loop. *)
Definition is_conversion_error (e : exn) : bool :=
  match e with
  | KeyError _ | TypeError | ValueError | OverflowError => true
  | _ => false
  end.

(** The error monad of code that only computes: [inl e] is [raise e]. *)
Definition Exc (A : Type) : Type := exn + A.

#[global] Instance Exc_ret : MRet Exc := fun _ x => inr x.
#[global] Instance Exc_bind : MBind Exc := fun _ _ f m =>
  match m with
  | inl e => inl e
  | inr x => f x
  end.

(** ** Floating point: binary64 *)

Definition prec : Z := 53.
Definition emax : Z := 1024.

Abbreviation float := spec_float (only parsing).

(** The nearest binary64 number to an integer (ties to even); an
    infinity when the integer is out of range. *)
Definition Z2SF (z : Z) : float := binary_normalize prec emax z 0 false.

(** The float literals of the script. *)
Definition lit_1024_0 : float := S754_finite false 4503599627370496 (-42).
Definition lit_1e6 : float := S754_finite false 8589934592000000 (-33).
Definition lit_0_8 : float := S754_finite false 7205759403792794 (-53).
Definition lit_1_0 : float := S754_finite false 4503599627370496 (-52).
Definition lit_0_0 : float := S754_zero false.

Definition is_zero (f : float) : bool :=
  match f with
  | S754_zero _ => true
  | _ => false
  end.

(** An integer a binary64 number can stand for (after rounding). *)
Definition in_float_range (n : Z) : bool :=
  match Z2SF n with
  | S754_infinity _ => false
  | _ => true
  end.

(** [float(z)] as the C conversion does it for [int / float]. *)
Definition float_of_int (z : Z) : Exc float :=
  match Z2SF z with
  | S754_infinity _ => inl OverflowError
  | f => inr f
  end.

(** [z / f] for an [int] z and a [float] f. *)
Definition truediv (z : Z) (f : float) : Exc float :=
  x ← float_of_int z;
  if is_zero f then inl ZeroDivisionError else inr (SFdiv prec emax x f).

(** ** csv.DictReader *)

(** A value of a record: a field, [None] (a short row is padded with
    [restval]) or the list of surplus fields (stored under [restkey]). *)
Inductive cell : Type :=
  | Str (s : string)
  | NoneVal
  | Rest (l : list string).

#[global] Instance cell_eq_dec : EqDecision cell.
Proof. solve_decision. Defined.

(** A record maps column names to values; the key [None] is [restkey]. *)
Abbreviation record := (gmap (option string) cell) (only parsing).

(** [dict(zip(fieldnames, row))]: a later duplicate name wins. *)
Definition dict_zip (fieldnames row : list string) : record :=
  foldl (fun d kv => <[Some kv.1 := Str kv.2]> d) ∅ (zip fieldnames row).

Definition pad_restval (d : record) (names : list string) : record :=
  foldl (fun d k => <[Some k := NoneVal]> d) d names.

Definition dict_row (fieldnames row : list string) : record :=
  let d := dict_zip fieldnames row in
  let lf := length fieldnames in
  let lr := length row in
  if (lf <? lr)%nat then <[None := Rest (drop lf row)]> d
  else if (lr <? lf)%nat then pad_restval d (drop lr fieldnames)
  else d.

Definition is_blank (row : list string) : bool :=
  match row with
  | [] => true
  | _ => false
  end.

(** The records [csv.DictReader] yields: the first row is the header,
    blank rows after it are skipped. *)
Definition DictReader (rows : list (list string)) : list record :=
  match rows with
  | [] => []
  | fieldnames :: rest =>
      map (dict_row fieldnames) (filter (fun r => negb (is_blank r)) rest)
  end.

(** [row[key]] *)
Definition getitem (row : record) (key : string) : Exc cell :=
  match row !! Some key with
  | Some v => inr v
  | None => inl (KeyError key)
  end.

(** ** The parse loop *)

(** The six lists the script fills, one element a record. *)
Record Series (datetime : Type) : Type := mkSeries {
  times : list datetime;
  alloc : list float;
  heap_alloc : list float;
  goroutines : list Z;
  num_gc : list Z;
  pause_ns : list float
}.
Arguments mkSeries {datetime} _ _ _ _ _ _.
Arguments times {datetime} _.
Arguments alloc {datetime} _.
Arguments heap_alloc {datetime} _.
Arguments goroutines {datetime} _.
Arguments num_gc {datetime} _.
Arguments pause_ns {datetime} _.

Section Parser.
Variable datetime : Type.
(** [datetime.fromisoformat] and [int] on a string; [None] is
    [ValueError]. *)
Variable fromisoformat : string -> option datetime.
Variable int_of_string : string -> option Z.

Definition datetime_fromisoformat (v : cell) : Exc datetime :=
  match v with
  | Str s =>
      match fromisoformat s with
      | Some t => inr t
      | None => inl ValueError
      end
  | _ => inl TypeError
  end.

Definition py_int (v : cell) : Exc Z :=
  match v with
  | Str s =>
      match int_of_string s with
      | Some n => inr n
      | None => inl ValueError
      end
  | _ => inl TypeError
  end.

Definition empty_series : Series datetime := mkSeries [] [] [] [] [] [].

(** The body of [for row in reader:], the lists being passed along. *)
Definition loop_body (s : Series datetime) (row : record) : Exc (Series datetime) :=
  v ← getitem row "time";
  t ← datetime_fromisoformat v;
  let times' := times s ++ [t] in
  v ← getitem row "alloc";
  n ← py_int v;
  x ← truediv n (SFmul prec emax lit_1024_0 lit_1024_0);
  let alloc' := alloc s ++ [x] in
  v ← getitem row "heap_alloc";
  n ← py_int v;
  x ← truediv n (SFmul prec emax lit_1024_0 lit_1024_0);
  let heap_alloc' := heap_alloc s ++ [x] in
  v ← getitem row "num_goroutine";
  n ← py_int v;
  let goroutines' := goroutines s ++ [n] in
  v ← getitem row "num_gc";
  n ← py_int v;
  let num_gc' := num_gc s ++ [n] in
  v ← getitem row "pause_total_ns";
  n ← py_int v;
  x ← truediv n lit_1e6;
  let pause_ns' := pause_ns s ++ [x] in
  mret (mkSeries times' alloc' heap_alloc' goroutines' num_gc' pause_ns').

Fixpoint parse_loop (rows : list record) (s : Series datetime) : Exc (Series datetime) :=
  match rows with
  | [] => inr s
  | row :: rows' => s' ← loop_body s row; parse_loop rows' s'
  end.
End Parser.

(** ** pyplot figures, files and the process state *)

(** A plotted value: the y data of a chart are ints or floats. *)
Inductive num : Type :=
  | IntV (n : Z)
  | FloatV (f : float).

(** pyplot turns the y data into floats: an int beyond the range of a
    float cannot be plotted. *)
Definition plottable (y : num) : bool :=
  match y with
  | IntV n => in_float_range n
  | FloatV _ => true
  end.

Record Line (datetime : Type) : Type := mkLine {
  xdata : list datetime;
  ydata : list num;
  label : string;
  alpha : option float
}.
Arguments mkLine {datetime} _ _ _ _.
Arguments xdata {datetime} _.
Arguments ydata {datetime} _.
Arguments label {datetime} _.
Arguments alpha {datetime} _.

Record Figure (datetime : Type) : Type := mkFigure {
  figsize : option (Z * Z);
  lines : list (Line datetime);
  xlabel : string;
  ylabel : string;
  title : string;
  has_legend : bool;
  tight : bool
}.
Arguments mkFigure {datetime} _ _ _ _ _ _ _.
Arguments figsize {datetime} _.
Arguments lines {datetime} _.
Arguments xlabel {datetime} _.
Arguments ylabel {datetime} _.
Arguments title {datetime} _.
Arguments has_legend {datetime} _.
Arguments tight {datetime} _.

(** What a file holds: the rows of a text file as [csv.reader] splits
    them, or an image, represented by the figure saved into it. *)
Inductive content (datetime : Type) : Type :=
  | Text (rows : list (list string))
  | Image (fig : Figure datetime).
Arguments Text {datetime} _.
Arguments Image {datetime} _.

(** The observable calls, in the order they happen. *)
Inductive event : Type :=
  | EvFigure
  | EvPlot (lbl : string)
  | EvSavefig (path : string)
  | EvClose
  | EvPrint (line : string).

Record World (datetime : Type) : Type := mkWorld {
  fs : gmap string (content datetime);
  stdout : list string;
  figs : list (Figure datetime);
  trace : list event
}.
Arguments mkWorld {datetime} _ _ _ _.
Arguments fs {datetime} _.
Arguments stdout {datetime} _.
Arguments figs {datetime} _.
Arguments trace {datetime} _.

(** [posixpath.join] of two components. *)
Definition path_join (a b : string) : string :=
  if String.prefix "/" b then b
  else if (String.eqb a "" || String.eqb (substring (String.length a - 1) 1 a) "/")%bool
       then a ++ b
       else a ++ "/" ++ b.

(** The file a relative path names in the working directory: leading
    [./] components do not change it. *)
Fixpoint resolve_fuel (n : nat) (p : string) : string :=
  match n with
  | O => p
  | S n' =>
      if String.prefix "./" p
      then resolve_fuel n' (substring 2 (String.length p - 2) p)
      else p
  end.
Definition resolve (p : string) : string := resolve_fuel (String.length p) p.

Section Process.
Variable datetime : Type.
Variable fromisoformat : string -> option datetime.
Variable int_of_string : string -> option Z.

(** Code with effects: the state is kept when an exception is raised. *)
Definition M (A : Type) : Type := World datetime -> Exc A * World datetime.

#[global] Instance M_ret : MRet M := fun _ x w => (inr x, w).
#[global] Instance M_bind : MBind M := fun _ _ f m w =>
  match m w with
  | (inl e, w') => (inl e, w')
  | (inr x, w') => f x w'
  end.

Definition raise {A : Type} (e : exn) : M A := fun w => (inl e, w).

Definition lift {A : Type} (c : Exc A) : M A := fun w => (c, w).

Definition log (ev : event) (w : World datetime) : World datetime :=
  mkWorld (fs w) (stdout w) (figs w) (trace w ++ [ev]).

(** [print(line)] *)
Definition print (line : string) : M unit := fun w =>
  (inr tt, log (EvPrint line) (mkWorld (fs w) (stdout w ++ [line]) (figs w) (trace w))).

(** [os.path.exists(path)] *)
Definition os_path_exists (path : string) : M bool := fun w =>
  (inr (bool_decide (is_Some (fs w !! resolve path))), w).

(** [open(path, 'r', encoding='utf-8')] read through [csv.reader]: an
    image is no UTF-8 text. *)
Definition read_rows (path : string) : M (list (list string)) := fun w =>
  match fs w !! resolve path with
  | None => (inl FileNotFoundError, w)
  | Some (Image _) => (inl UnicodeDecodeError, w)
  | Some (Text rows) => (inr rows, w)
  end.

(** The figure pyplot draws on: the current one, a new default one
    when none is open. *)
Definition new_figure (size : option (Z * Z)) : Figure datetime :=
  mkFigure size [] "" "" "" false false.

Definition gcf (w : World datetime) : Figure datetime * list (Figure datetime) :=
  match figs w with
  | [] => (new_figure None, [])
  | f :: rest => (f, rest)
  end.

Definition on_current (upd : Figure datetime -> Figure datetime) (w : World datetime)
  : World datetime :=
  let '(f, rest) := gcf w in
  mkWorld (fs w) (stdout w) (upd f :: rest) (trace w).

(** [plt.figure(figsize=(w, h))] *)
Definition plt_figure (size : Z * Z) : M unit := fun w =>
  (inr tt, log EvFigure
     (mkWorld (fs w) (stdout w) (new_figure (Some size) :: figs w) (trace w))).

(** [plt.plot(x, y, label=..., alpha=...)]: an int in the y data that
    is beyond the range of a float raises [OverflowError], and nothing
    is drawn. *)
Definition plt_plot (x : list datetime) (y : list num) (lbl : string)
    (a : option float) : M unit :=
  if forallb plottable y
  then fun w =>
    (inr tt, log (EvPlot lbl)
       (on_current (fun f =>
          mkFigure (figsize f) (lines f ++ [mkLine x y lbl a]) (xlabel f) (ylabel f)
                   (title f) (has_legend f) (tight f)) w))
  else raise OverflowError.

Definition plt_xlabel (s : string) : M unit := fun w =>
  (inr tt, on_current (fun f =>
     mkFigure (figsize f) (lines f) s (ylabel f) (title f) (has_legend f) (tight f)) w).

Definition plt_ylabel (s : string) : M unit := fun w =>
  (inr tt, on_current (fun f =>
     mkFigure (figsize f) (lines f) (xlabel f) s (title f) (has_legend f) (tight f)) w).

Definition plt_title (s : string) : M unit := fun w =>
  (inr tt, on_current (fun f =>
     mkFigure (figsize f) (lines f) (xlabel f) (ylabel f) s (has_legend f) (tight f)) w).

Definition plt_legend : M unit := fun w =>
  (inr tt, on_current (fun f =>
     mkFigure (figsize f) (lines f) (xlabel f) (ylabel f) (title f) true (tight f)) w).

Definition plt_tight_layout : M unit := fun w =>
  (inr tt, on_current (fun f =>
     mkFigure (figsize f) (lines f) (xlabel f) (ylabel f) (title f) (has_legend f) true) w).

(** [plt.savefig(path)]: the file is created or overwritten. *)
Definition plt_savefig (path : string) : M unit := fun w =>
  let w1 := on_current (fun f => f) w in
  let '(f, _) := gcf w1 in
  (inr tt, log (EvSavefig path)
     (mkWorld (<[resolve path := Image f]> (fs w1)) (stdout w1) (figs w1) (trace w1))).

(** [plt.close()]: closes the current figure, if any. *)
Definition plt_close : M unit := fun w =>
  (inr tt, log EvClose (mkWorld (fs w) (stdout w) (tail (figs w)) (trace w))).

(** ** The script *)

Definition CSV_PATH : string := "bench_sustained_metrics_round2.csv".
Definition OUT_DIR : string := ".".

(** Lines 10 to 12: the guard on the input file. *)
Definition check_input : M unit :=
  found ← os_path_exists CSV_PATH;
  if negb found
  then _ ← print ("CSV not found: " ++ CSV_PATH); raise (SystemExit 1)
  else mret tt.

(** Lines 14 to 31: the six lists and the loop over the records. *)
Definition parse_input : M (Series datetime) :=
  rows ← read_rows CSV_PATH;
  lift (parse_loop datetime fromisoformat int_of_string (DictReader rows)
          (empty_series datetime)).

(** Lines 36 to 48. *)
Definition plot_alloc (s : Series datetime) : M unit :=
  _ ← plt_figure (12, 6);
  _ ← plt_plot (times s) (FloatV <$> alloc s) "Alloc (MB)" None;
  _ ← plt_plot (times s) (FloatV <$> heap_alloc s) "HeapAlloc (MB)" (Some lit_0_8);
  _ ← plt_xlabel "Time";
  _ ← plt_ylabel "MB";
  _ ← plt_title "Alloc / HeapAlloc over time";
  _ ← plt_legend;
  _ ← plt_tight_layout;
  let alloc_png := path_join OUT_DIR "bench_alloc.png" in
  _ ← plt_savefig alloc_png;
  _ ← plt_close;
  print ("wrote " ++ alloc_png).

(** Lines 50 to 60. *)
Definition plot_goroutines (s : Series datetime) : M unit :=
  _ ← plt_figure (12, 4);
  _ ← plt_plot (times s) (IntV <$> goroutines s) "Goroutines" None;
  _ ← plt_xlabel "Time";
  _ ← plt_ylabel "Count";
  _ ← plt_title "Goroutines over time";
  _ ← plt_tight_layout;
  let gor_png := path_join OUT_DIR "bench_goroutines.png" in
  _ ← plt_savefig gor_png;
  _ ← plt_close;
  print ("wrote " ++ gor_png).

(** Lines 62 to 72. *)
Definition plot_numgc (s : Series datetime) : M unit :=
  _ ← plt_figure (12, 4);
  _ ← plt_plot (times s) (IntV <$> num_gc s) "NumGC" None;
  _ ← plt_xlabel "Time";
  _ ← plt_ylabel "Count";
  _ ← plt_title "NumGC over time";
  _ ← plt_tight_layout;
  let gc_png := path_join OUT_DIR "bench_numgc.png" in
  _ ← plt_savefig gc_png;
  _ ← plt_close;
  print ("wrote " ++ gc_png).

(** Lines 74 to 84. *)
Definition plot_pause (s : Series datetime) : M unit :=
  _ ← plt_figure (12, 4);
  _ ← plt_plot (times s) (FloatV <$> pause_ns s) "PauseTotal (ms)" None;
  _ ← plt_xlabel "Time";
  _ ← plt_ylabel "ms";
  _ ← plt_title "GC PauseTotal over time";
  _ ← plt_tight_layout;
  let pause_png := path_join OUT_DIR "bench_pause.png" in
  _ ← plt_savefig pause_png;
  _ ← plt_close;
  print ("wrote " ++ pause_png).

(** The whole module, from top to bottom; its value is the six lists
    as they are when the last statement has run. *)
Definition script : M (Series datetime) :=
  _ ← check_input;
  s ← parse_input;
  _ ← plot_alloc s;
  _ ← plot_goroutines s;
  _ ← plot_numgc s;
  _ ← plot_pause s;
  mret s.

(** A process starts with nothing printed and no figure open. *)
Definition start (files : gmap string (content datetime)) : World datetime :=
  mkWorld files [] [] [].

Definition run (files : gmap string (content datetime))
  : Exc (Series datetime) * World datetime :=
  script (start files).

(** The exit status of the interpreter. *)
Definition exit_status {A : Type} (r : Exc A) : Z :=
  match r with
  | inr _ => 0
  | inl (SystemExit code) => code
  | inl _ => 1
  end.
End Process.

(** ** What the specification says about a record

    These definitions follow the words of the specification, not the
    code; the theorems compare them with the script. *)

(** "convert to mebibytes by dividing by 1,048,576" *)
Definition bytes_to_mebibytes (n : Z) : float := SFdiv prec emax (Z2SF n) (Z2SF 1048576).

(** "convert to milliseconds by dividing by 1,000,000" *)
Definition ns_to_ms (n : Z) : float := SFdiv prec emax (Z2SF n) (Z2SF 1000000).

(** The float [f], read as a real number, is the quotient of the
    integers [a] and [d]: value(f) * d = a, both sides scaled by the
    power of two that clears the exponent of [f]. *)
Definition is_exact_quotient (f : float) (a d : Z) : Prop :=
  match f with
  | S754_zero _ => a = 0
  | S754_finite sg m e =>
      cond_Zopp sg (Z.pos m) * 2 ^ Z.max e 0 * d = a * 2 ^ Z.max (- e) 0
  | _ => False
  end.

(** The typed values of one record. *)
Record Sample6 (datetime : Type) : Type := mkSample6 {
  v_time : datetime;
  v_allocMB : float;
  v_heapAllocMB : float;
  v_goroutines : Z;
  v_numGC : Z;
  v_pauseMS : float
}.
Arguments mkSample6 {datetime} _ _ _ _ _ _.
Arguments v_time {datetime} _.
Arguments v_allocMB {datetime} _.
Arguments v_heapAllocMB {datetime} _.
Arguments v_goroutines {datetime} _.
Arguments v_numGC {datetime} _.
Arguments v_pauseMS {datetime} _.

(** The six columns the script reads, and the five numeric ones. *)
Definition columns : list string :=
  ["time"; "alloc"; "heap_alloc"; "num_goroutine"; "num_gc"; "pause_total_ns"].
Definition numeric_columns : list string :=
  ["alloc"; "heap_alloc"; "num_goroutine"; "num_gc"; "pause_total_ns"].

Section Expected.
Variable datetime : Type.
Variable fromisoformat : string -> option datetime.
Variable int_of_string : string -> option Z.

(** The timestamp of a record, when the column is there and parses. *)
Definition time_field (r : record) : option datetime :=
  match r !! Some "time" with
  | Some (Str s) => fromisoformat s
  | _ => None
  end.

(** The integer in a column, when the column is there and numeric. *)
Definition int_field (r : record) (k : string) : option Z :=
  match r !! Some k with
  | Some (Str s) => int_of_string s
  | _ => None
  end.

(** The exception a column raises when it is absent ([KeyError]),
    [None] or a list ([TypeError]), or a string that does not parse
    ([ValueError]). *)
Definition field_error (r : record) (k : string) : exn :=
  match r !! Some k with
  | None => KeyError k
  | Some (Str _) => ValueError
  | Some _ => TypeError
  end.

(** The integer in a column, when it also fits a float. *)
Definition float_field (r : record) (k : string) : option Z :=
  n ← int_field r k; if in_float_range n then Some n else None.

Definition row_values (r : record) : option (Sample6 datetime) :=
  t ← time_field r;
  a ← float_field r "alloc";
  h ← float_field r "heap_alloc";
  g ← int_field r "num_goroutine";
  c ← int_field r "num_gc";
  p ← float_field r "pause_total_ns";
  Some (mkSample6 t (bytes_to_mebibytes a) (bytes_to_mebibytes h) g c (ns_to_ms p)).

(** A record every field of which parses. *)
Definition well_formed (r : record) : Prop := is_Some (row_values r).

#[global] Instance well_formed_dec (r : record) : Decision (well_formed r).
Proof. unfold well_formed. apply _. Defined.

(** A record with a numeric field absent or not numeric. *)
Definition bad_numeric (r : record) : Prop :=
  Exists (fun k => int_field r k = None) numeric_columns.

#[global] Instance bad_numeric_dec (r : record) : Decision (bad_numeric r).
Proof. unfold bad_numeric. apply _. Defined.

(** Two records with the same six columns. *)
Definition agree (r1 r2 : record) : Prop :=
  Forall (fun k => r1 !! Some k = r2 !! Some k) columns.

#[global] Instance agree_dec (r1 r2 : record) : Decision (agree r1 r2).
Proof. unfold agree. apply _. Defined.

(** The lists after one more record. *)
Definition push (s : Series datetime) (v : Sample6 datetime) : Series datetime :=
  mkSeries (times s ++ [v_time v]) (alloc s ++ [v_allocMB v])
           (heap_alloc s ++ [v_heapAllocMB v]) (goroutines s ++ [v_goroutines v])
           (num_gc s ++ [v_numGC v]) (pause_ns s ++ [v_pauseMS v]).

(** The six values at one index of the lists. *)
Definition series_at (s : Series datetime) (i : nat) : option (Sample6 datetime) :=
  t ← times s !! i;
  a ← alloc s !! i;
  h ← heap_alloc s !! i;
  g ← goroutines s !! i;
  c ← num_gc s !! i;
  p ← pause_ns s !! i;
  Some (mkSample6 t a h g c p).

(** The four charts, as the specification describes them. *)
Definition chart_alloc (s : Series datetime) : Figure datetime :=
  mkFigure (Some (12, 6))
    [mkLine (times s) (FloatV <$> alloc s) "Alloc (MB)" None;
     mkLine (times s) (FloatV <$> heap_alloc s) "HeapAlloc (MB)" (Some lit_0_8)]
    "Time" "MB" "Alloc / HeapAlloc over time" true true.

Definition chart_goroutines (s : Series datetime) : Figure datetime :=
  mkFigure (Some (12, 4))
    [mkLine (times s) (IntV <$> goroutines s) "Goroutines" None]
    "Time" "Count" "Goroutines over time" false true.

Definition chart_numgc (s : Series datetime) : Figure datetime :=
  mkFigure (Some (12, 4))
    [mkLine (times s) (IntV <$> num_gc s) "NumGC" None]
    "Time" "Count" "NumGC over time" false true.

Definition chart_pause (s : Series datetime) : Figure datetime :=
  mkFigure (Some (12, 4))
    [mkLine (times s) (FloatV <$> pause_ns s) "PauseTotal (ms)" None]
    "Time" "ms" "GC PauseTotal over time" false true.

(** The files after a run that draws the four charts. *)
Definition files_after (files : gmap string (content datetime)) (s : Series datetime)
  : gmap string (content datetime) :=
  <["bench_pause.png" := Image (chart_pause s)]>
    (<["bench_numgc.png" := Image (chart_numgc s)]>
       (<["bench_goroutines.png" := Image (chart_goroutines s)]>
          (<["bench_alloc.png" := Image (chart_alloc s)]> files))).

Definition wrote_lines : list string :=
  ["wrote ./bench_alloc.png"; "wrote ./bench_goroutines.png";
   "wrote ./bench_numgc.png"; "wrote ./bench_pause.png"].

Definition chart_events (plots : list string) (path : string) : list event :=
  [EvFigure] ++ (EvPlot <$> plots) ++ [EvSavefig path; EvClose; EvPrint ("wrote " ++ path)].

Definition full_trace : list event :=
  chart_events ["Alloc (MB)"; "HeapAlloc (MB)"] "./bench_alloc.png"
  ++ chart_events ["Goroutines"] "./bench_goroutines.png"
  ++ chart_events ["NumGC"] "./bench_numgc.png"
  ++ chart_events ["PauseTotal (ms)"] "./bench_pause.png".

(** The state a run that draws the four charts ends in. *)
Definition world_after (files : gmap string (content datetime)) (s : Series datetime)
  : World datetime :=
  mkWorld (files_after files s) wrote_lines [] full_trace.

(** The states between the render blocks of a run that ends normally:
    after the first, the second and the third chart. *)
Definition world_after_alloc (files : gmap string (content datetime))
    (s : Series datetime) : World datetime :=
  mkWorld (<["bench_alloc.png" := Image (chart_alloc s)]> files)
    ["wrote ./bench_alloc.png"] []
    (chart_events ["Alloc (MB)"; "HeapAlloc (MB)"] "./bench_alloc.png").

Definition world_after_goroutines (files : gmap string (content datetime))
    (s : Series datetime) : World datetime :=
  mkWorld (<["bench_goroutines.png" := Image (chart_goroutines s)]>
             (<["bench_alloc.png" := Image (chart_alloc s)]> files))
    ["wrote ./bench_alloc.png"; "wrote ./bench_goroutines.png"] []
    (chart_events ["Alloc (MB)"; "HeapAlloc (MB)"] "./bench_alloc.png"
     ++ chart_events ["Goroutines"] "./bench_goroutines.png").

Definition world_after_numgc (files : gmap string (content datetime))
    (s : Series datetime) : World datetime :=
  mkWorld (<["bench_numgc.png" := Image (chart_numgc s)]>
             (<["bench_goroutines.png" := Image (chart_goroutines s)]>
                (<["bench_alloc.png" := Image (chart_alloc s)]> files)))
    ["wrote ./bench_alloc.png"; "wrote ./bench_goroutines.png";
     "wrote ./bench_numgc.png"] []
    (chart_events ["Alloc (MB)"; "HeapAlloc (MB)"] "./bench_alloc.png"
     ++ chart_events ["Goroutines"] "./bench_goroutines.png"
     ++ chart_events ["NumGC"] "./bench_numgc.png").

(** Integers pyplot can plot. *)
Definition ints_fit (l : list Z) : bool := forallb in_float_range l.

(** A record whose two counts, where they are integers, can be plotted. *)
Definition counts_plottable (r : record) : bool :=
  match int_field r "num_goroutine" with
  | Some g => in_float_range g
  | None => true
  end
  && match int_field r "num_gc" with
     | Some c => in_float_range c
     | None => true
     end.

(** The state in which the second chart fails: the first chart is
    saved and reported, the second figure is open and empty. *)
Definition world_failed_goroutines (files : gmap string (content datetime))
    (s : Series datetime) : World datetime :=
  mkWorld (<["bench_alloc.png" := Image (chart_alloc s)]> files)
    ["wrote ./bench_alloc.png"]
    [mkFigure (Some (12, 4)) [] "" "" "" false false]
    (chart_events ["Alloc (MB)"; "HeapAlloc (MB)"] "./bench_alloc.png" ++ [EvFigure]).

(** The state in which the third chart fails: two charts are saved and
    reported, the third figure is open and empty. *)
Definition world_failed_numgc (files : gmap string (content datetime))
    (s : Series datetime) : World datetime :=
  mkWorld (<["bench_goroutines.png" := Image (chart_goroutines s)]>
             (<["bench_alloc.png" := Image (chart_alloc s)]> files))
    ["wrote ./bench_alloc.png"; "wrote ./bench_goroutines.png"]
    [mkFigure (Some (12, 4)) [] "" "" "" false false]
    (chart_events ["Alloc (MB)"; "HeapAlloc (MB)"] "./bench_alloc.png"
     ++ chart_events ["Goroutines"] "./bench_goroutines.png" ++ [EvFigure]).

(** What the four render blocks give on the six lists. *)
Definition render_result (files : gmap string (content datetime)) (s : Series datetime)
  : Exc (Series datetime) * World datetime :=
  if ints_fit (goroutines s)
  then if ints_fit (num_gc s)
       then (inr s, world_after files s)
       else (inl OverflowError, world_failed_numgc files s)
  else (inl OverflowError, world_failed_goroutines files s).

Definition output_names : list string :=
  ["bench_alloc.png"; "bench_goroutines.png"; "bench_numgc.png"; "bench_pause.png"].

(** The paths given to [savefig], in the order of the calls. *)
Definition saved_paths (tr : list event) : list string :=
  omap (fun ev => match ev with EvSavefig p => Some p | _ => None end) tr.
End Expected.

(** Two runs that cannot be told apart: the same result (the six lists
    or the exception), the same printed lines, the same calls and,
    when the run ends normally, the same four images. *)
Definition same_outcome {datetime : Type}
    (r1 r2 : Exc (Series datetime) * World datetime) : Prop :=
  r1.1 = r2.1
  /\ stdout r1.2 = stdout r2.2
  /\ trace r1.2 = trace r2.2
  /\ forall s : Series datetime,
       r1.1 = inr s ->
       forall p : string, p ∈ output_names -> fs r1.2 !! p = fs r2.2 !! p.

(** ** A sample instance, to run the script on concrete files

    [int_of_string] is Python's [int] on ASCII text: surrounding
    whitespace is dropped, a sign may come first, and the decimal
    digits may be separated by single underscores.  [fromisoformat]
    is a stand-in that looks at the date part only and keeps the text
    as the timestamp.  The theorems do not depend on either. *)

Module Sample.
Definition datetime : Type := string.

Definition code (c : ascii) : N := N_of_ascii c.

Definition is_digit (c : ascii) : bool := ((48 <=? code c) && (code c <=? 57))%N.

Definition is_space (c : ascii) : bool :=
  (((9 <=? code c) && (code c <=? 13)) || ((28 <=? code c) && (code c <=? 32)))%N.

Fixpoint lstrip (l : list ascii) : list ascii :=
  match l with
  | c :: l' => if is_space c then lstrip l' else l
  | [] => []
  end.

Definition strip (l : list ascii) : list ascii := rev (lstrip (rev (lstrip l))).

(** Digits with single underscores between them; [after_digit] says
    whether the character before was a digit. *)
Fixpoint digits (acc : Z) (after_digit : bool) (l : list ascii) : option Z :=
  match l with
  | [] => if after_digit then Some acc else None
  | c :: l' =>
      if is_digit c then digits (10 * acc + (Z.of_N (code c) - 48)) true l'
      else if (Ascii.eqb c "_" && after_digit)%bool then digits acc false l'
      else None
  end.

Definition int_of_string (s : string) : option Z :=
  match strip (list_ascii_of_string s) with
  | "-"%char :: l => Z.opp <$> digits 0 false l
  | "+"%char :: l => digits 0 false l
  | l => digits 0 false l
  end.

Definition date_shape (l : list ascii) : bool :=
  match l with
  | y1 :: y2 :: y3 :: y4 :: "-"%char :: m1 :: m2 :: "-"%char :: d1 :: d2 :: _ =>
      forallb is_digit [y1; y2; y3; y4; m1; m2; d1; d2]
  | _ => false
  end.

Definition fromisoformat (s : string) : option datetime :=
  if date_shape (list_ascii_of_string s) then Some s else None.

Definition header : list string :=
  ["time"; "alloc"; "heap_alloc"; "num_goroutine"; "num_gc"; "pause_total_ns"].

(** Three samples. *)
Definition good_rows : list (list string) :=
  [header;
   ["2025-11-02T10:00:00+08:00"; "1048576"; "0"; "12"; "3"; "1000000"];
   ["2025-11-02T10:00:01+08:00"; "3145728"; "2097152"; "14"; "4"; "2500000"];
   ["2025-11-02T10:00:02+08:00"; "524288"; "1048576"; "9"; "4"; "2500001"]].

(** The same samples with two more columns, in another column order,
    and with a blank line. *)
Definition wide_rows : list (list string) :=
  [["sys"; "time"; "alloc"; "heap_alloc"; "num_goroutine"; "num_gc"; "pause_total_ns"; "note"];
   ["77"; "2025-11-02T10:00:00+08:00"; "1048576"; "0"; "12"; "3"; "1000000"; "warm-up"];
   [];
   ["78"; "2025-11-02T10:00:01+08:00"; "3145728"; "2097152"; "14"; "4"; "2500000"; ""];
   ["79"; "2025-11-02T10:00:02+08:00"; "524288"; "1048576"; "9"; "4"; "2500001"; "x"]].

(** The second sample has [abc] for [alloc]. *)
Definition bad_rows : list (list string) :=
  [header;
   ["2025-11-02T10:00:00+08:00"; "1048576"; "0"; "12"; "3"; "1000000"];
   ["2025-11-02T10:00:01+08:00"; "abc"; "2097152"; "14"; "4"; "2500000"];
   ["2025-11-02T10:00:02+08:00"; "524288"; "1048576"; "9"; "4"; "2500001"]].

(** The second sample stops after [num_goroutine]. *)
Definition short_rows : list (list string) :=
  [header;
   ["2025-11-02T10:00:00+08:00"; "1048576"; "0"; "12"; "3"; "1000000"];
   ["2025-11-02T10:00:01+08:00"; "3145728"; "2097152"; "14"]].

Definition old_image : Figure datetime := mkFigure None [] "" "" "old" false false.

Definition with_input (rows : list (list string)) : gmap string (content datetime) :=
  <[CSV_PATH := Text rows]> (<["bench_alloc.png" := Image old_image]> ∅).

Definition good_files : gmap string (content datetime) := with_input good_rows.
Definition wide_files : gmap string (content datetime) := with_input wide_rows.
Definition bad_files : gmap string (content datetime) := with_input bad_rows.
Definition short_files : gmap string (content datetime) := with_input short_rows.
Definition header_only_files : gmap string (content datetime) := with_input [header].

Definition run_sample (files : gmap string (content datetime))
  : Exc (Series datetime) * World datetime :=
  run datetime fromisoformat int_of_string files.
(** More sample files: an integer beyond every float, the columns in
    another order, rows with surplus fields, a header without [time]. *)
Definition huge : string := String "1" (string_of_list_ascii (repeat "0"%char 400)).

Definition huge_count_row : list string :=
  ["2025-11-02T10:00:00+08:00"; "1048576"; "0"; huge; "3"; "1000000"].
Definition huge_alloc_row : list string :=
  ["2025-11-02T10:00:00+08:00"; huge; "0"; "12"; "3"; "1000000"].

Definition reordered_header : list string :=
  ["pause_total_ns"; "num_gc"; "num_goroutine"; "heap_alloc"; "alloc"; "time"].
Definition reordered_rows : list (list string) :=
  [["1000000"; "3"; "12"; "0"; "1048576"; "2025-11-02T10:00:00+08:00"];
   ["2500000"; "4"; "14"; "2097152"; "3145728"; "2025-11-02T10:00:01+08:00"];
   ["2500001"; "4"; "9"; "1048576"; "524288"; "2025-11-02T10:00:02+08:00"]].

Definition long_rows : list (list string) :=
  [["2025-11-02T10:00:00+08:00"; "1048576"; "0"; "12"; "3"; "1000000"; "x"; "y"];
   ["2025-11-02T10:00:01+08:00"; "3145728"; "2097152"; "14"; "4"; "2500000"];
   [];
   ["2025-11-02T10:00:02+08:00"; "524288"; "1048576"; "9"; "4"; "2500001"; "z"]].

Definition no_time_rows : list (list string) :=
  [["timestamp"; "alloc"; "heap_alloc"; "num_goroutine"; "num_gc"; "pause_total_ns"];
   [];
   ["2025-11-02T10:00:00+08:00"; "1048576"; "0"; "12"; "3"; "1000000"]].
End Sample.

(** * Properties *)

(** ** The float constants *)

Lemma MB_is_1048576 : SFmul prec emax lit_1024_0 lit_1024_0 = Z2SF 1048576.
Proof. vm_compute. reflexivity. Qed.

Lemma lit_1e6_is_1000000 : lit_1e6 = Z2SF 1000000.
Proof. vm_compute. reflexivity. Qed.

Lemma truediv_MB (n : Z) :
  truediv n (SFmul prec emax lit_1024_0 lit_1024_0)
  = if in_float_range n then inr (bytes_to_mebibytes n) else inl OverflowError.
Proof.
  rewrite MB_is_1048576.
  unfold truediv, float_of_int, in_float_range, bytes_to_mebibytes.
  destruct (Z2SF n); reflexivity.
Qed.

Lemma truediv_1e6 (n : Z) :
  truediv n lit_1e6 = if in_float_range n then inr (ns_to_ms n) else inl OverflowError.
Proof.
  rewrite lit_1e6_is_1000000.
  unfold truediv, float_of_int, in_float_range, ns_to_ms.
  destruct (Z2SF n); reflexivity.
Qed.

(** The literal [0.8] is the binary64 number nearest to 8/10. *)
Lemma lit_0_8_is_8_over_10 : lit_0_8 = SFdiv prec emax (Z2SF 8) (Z2SF 10).
Proof. vm_compute. reflexivity. Qed.

(** ** Division by 2^20 is exact

    A binary64 number has a 53-bit mantissa: an integer of magnitude at
    most 2^53 converts without rounding, and dividing by 1048576 only
    lowers the exponent by 20. *)

(** [digits2_pos] counts the binary digits. *)
Lemma digits2_bounds (p : positive) :
  2 ^ (Z.pos (digits2_pos p) - 1) <= Z.pos p < 2 ^ Z.pos (digits2_pos p).
Proof.
  induction p as [p IH|p IH|]; simpl digits2_pos.
  - rewrite Pos2Z.inj_succ.
    replace (Z.succ (Z.pos (digits2_pos p)) - 1) with (Z.succ (Z.pos (digits2_pos p) - 1)) by lia.
    rewrite !Z.pow_succ_r by lia. lia.
  - rewrite Pos2Z.inj_succ.
    replace (Z.succ (Z.pos (digits2_pos p)) - 1) with (Z.succ (Z.pos (digits2_pos p) - 1)) by lia.
    rewrite !Z.pow_succ_r by lia. lia.
  - simpl. lia.
Qed.

(** Shifting a mantissa left by [k] bits. *)
Lemma iter_xO_value (a k : positive) :
  Z.pos (Pos.iter xO a k) = Z.pos a * 2 ^ Z.pos k.
Proof.
  induction k as [|k IH] using Pos.peano_ind.
  - simpl. lia.
  - rewrite Pos.iter_succ, Pos2Z.inj_succ, Z.pow_succ_r by lia.
    rewrite Pos2Z.inj_xO, IH. lia.
Qed.

Lemma iter_xO_digits (a k : positive) :
  Z.pos (digits2_pos (Pos.iter xO a k)) = Z.pos (digits2_pos a) + Z.pos k.
Proof.
  induction k as [|k IH] using Pos.peano_ind.
  - simpl. lia.
  - rewrite Pos.iter_succ. simpl digits2_pos. rewrite !Pos2Z.inj_succ, IH. lia.
Qed.

(** Rounding a value that is already a canonical binary64 number. *)
Lemma round_canonical (s : bool) (m : positive) (e : Z) :
  canonical_mantissa prec emax m e = true ->
  e <= 971 ->
  binary_round_aux prec emax s (Z.pos m) e loc_Exact = S754_finite s m e.
Proof.
  intros Hc He. unfold canonical_mantissa in Hc. apply Z.eqb_eq in Hc.
  unfold binary_round_aux, shr_fexp. simpl Zdigits2. rewrite Hc, Z.sub_diag.
  simpl. rewrite Hc, Z.sub_diag. simpl.
  replace (e <=? emax - prec)%Z with true; [reflexivity|].
  symmetry. apply Z.leb_le. unfold emax, prec. lia.
Qed.

(** Rounding an even 54-bit mantissa drops its last bit. *)
Lemma round_double (s : bool) (m : positive) (e : Z) :
  digits2_pos m = 53%positive ->
  -1053 <= e <= 970 ->
  binary_round_aux prec emax s (Z.pos m~0) e loc_Exact = S754_finite s m (e + 1).
Proof.
  intros Hd He.
  unfold binary_round_aux, shr_fexp. simpl Zdigits2. rewrite Hd.
  replace (fexp prec emax (Z.pos (Pos.succ 53) + e) - e) with 1
    by (unfold fexp, emin, prec, emax; lia).
  simpl. rewrite Hd.
  replace (fexp prec emax (53 + (e + 1)) - (e + 1)) with 0
    by (unfold fexp, emin, prec, emax; lia).
  simpl.
  replace (e + 1 <=? emax - prec)%Z with true; [reflexivity|].
  symmetry. apply Z.leb_le. unfold emax, prec. lia.
Qed.

Lemma div_eucl_pair (a b : Z) : Z.div_eucl a b = (a / b, a mod b).
Proof. unfold Z.div, Z.modulo. destruct (Z.div_eucl a b). reflexivity. Qed.

(** A normal number divided by 2^20. *)
Lemma SFdiv_MB (s : bool) (m : positive) (e : Z) :
  digits2_pos m = 53%positive ->
  -1032 <= e <= 971 ->
  SFdiv prec emax (S754_finite s m e) (Z2SF 1048576) = S754_finite s m (e - 20).
Proof.
  intros Hd He.
  change (Z2SF 1048576) with (S754_finite false 4503599627370496 (-32)).
  unfold SFdiv, SFdiv_core_binary.
  change (Zdigits2 (Z.pos 4503599627370496)) with 53.
  change (Zdigits2 (Z.pos m)) with (Z.pos (digits2_pos m)). rewrite Hd.
  replace (Z.min (fexp prec emax (53 + e - (53 + -32))) (e - -32)) with (e - 21)
    by (unfold fexp, emin, prec, emax; lia).
  replace (e - -32 - (e - 21)) with 53 by lia.
  rewrite div_eucl_pair.
  rewrite Z.shiftl_mul_pow2 by lia.
  replace (Z.pos m * 2 ^ 53) with (Z.pos m~0 * 4503599627370496) by lia.
  rewrite Z.div_mul, Z.mod_mul by lia.
  change (new_location 4503599627370496 0) with loc_Exact.
  rewrite xorb_false_r, round_double by (assumption || lia).
  f_equal. lia.
Qed.

(** The conversion of an integer below 2^53 shifts it to 53 bits. *)
Lemma binary_round_small (s : bool) (p : positive) :
  Z.pos p < 2 ^ 53 ->
  exists (m : positive) (e : Z),
    binary_round prec emax s p 0 = S754_finite s m e
    /\ digits2_pos m = 53%positive
    /\ -52 <= e <= 0
    /\ Z.pos m = Z.pos p * 2 ^ (- e).
Proof.
  intros Hp.
  pose proof (digits2_bounds p) as [Hlo Hhi].
  assert (Z.pos (digits2_pos p) <= 53) as Hd.
  { destruct (Z.le_gt_cases (Z.pos (digits2_pos p)) 53) as [H|H]; [exact H|].
    exfalso.
    assert (2 ^ 53 <= 2 ^ (Z.pos (digits2_pos p) - 1)) by (apply Z.pow_le_mono_r; lia).
    lia. }
  unfold binary_round.
  replace (fexp prec emax (Z.pos (digits2_pos p) + 0)) with (Z.pos (digits2_pos p) - 53)
    by (unfold fexp, emin, prec, emax; lia).
  unfold shl_align.
  destruct (Z.pos (digits2_pos p) - 53 - 0) as [|k|k] eqn:Hk; [|lia|].
  - exists p, 0. split; [|split; [|split]].
    + apply round_canonical; [|lia].
      unfold canonical_mantissa. apply Z.eqb_eq.
      unfold fexp, emin, prec, emax. lia.
    + apply Pos2Z.inj. lia.
    + lia.
    + simpl. lia.
  - exists (Pos.iter xO p k), (Z.pos (digits2_pos p) - 53).
    pose proof (iter_xO_digits p k) as HD.
    pose proof (iter_xO_value p k) as HV.
    split; [|split; [|split]].
    + apply round_canonical; [|lia].
      unfold canonical_mantissa. apply Z.eqb_eq. rewrite HD.
      unfold fexp, emin, prec, emax. lia.
    + apply Pos2Z.inj. lia.
    + lia.
    + rewrite HV. f_equal. f_equal. lia.
Qed.

Lemma bytes_to_mebibytes_signed (s : bool) (p : positive) :
  Z.pos p <= 2 ^ 53 ->
  in_float_range (cond_Zopp s (Z.pos p)) = true
  /\ is_exact_quotient (bytes_to_mebibytes (cond_Zopp s (Z.pos p)))
       (cond_Zopp s (Z.pos p)) 1048576.
Proof.
  intros Hp.
  assert (Z.pos p < 2 ^ 53 \/ p = 9007199254740992%positive) as [Hlt| ->] by lia.
  - destruct (binary_round_small s p Hlt) as (m & e & Hr & Hd & He & Hv).
    assert (Z2SF (cond_Zopp s (Z.pos p)) = S754_finite s m e) as HZ.
    { destruct s; exact Hr. }
    unfold in_float_range, bytes_to_mebibytes. rewrite HZ.
    split; [reflexivity|].
    rewrite SFdiv_MB by (assumption || lia).
    unfold is_exact_quotient.
    rewrite Z.max_r, Z.max_l by lia.
    replace (- (e - 20)) with (- e + 20) by lia.
    rewrite Z.pow_add_r by lia.
    destruct s; simpl cond_Zopp; rewrite ?Pos2Z.opp_pos; lia.
  - destruct s; vm_compute; split; reflexivity.
Qed.

(** Up to 2^53 bytes the mebibyte value is the exact quotient. *)
Lemma bytes_to_mebibytes_exact (a : Z) :
  Z.abs a <= 2 ^ 53 ->
  in_float_range a = true /\ is_exact_quotient (bytes_to_mebibytes a) a 1048576.
Proof.
  intros Ha. destruct a as [|p|p].
  - vm_compute. split; reflexivity.
  - apply (bytes_to_mebibytes_signed false p). lia.
  - apply (bytes_to_mebibytes_signed true p). lia.
Qed.

(** Above 2^53 the integer is first rounded to binary64, as Python
    does for [int / float]: 2^53 + 1 bytes give 8589934592.0. *)
Lemma bytes_to_mebibytes_rounds :
  ~ is_exact_quotient (bytes_to_mebibytes 9007199254740993) 9007199254740993 1048576.
Proof. vm_compute. discriminate. Qed.

(** The millisecond value is the binary64 number nearest to the
    quotient: [1 / 1e6] is [1e-06], which is not 10^-6 itself. *)
Lemma ns_to_ms_rounds : ~ is_exact_quotient (ns_to_ms 1) 1 1000000.
Proof. vm_compute. discriminate. Qed.

(** ** The parse loop *)

Section ParserFacts.
Variable datetime : Type.
Variable fromisoformat : string -> option datetime.
Variable int_of_string : string -> option Z.

Local Abbreviation loop_body := (loop_body datetime fromisoformat int_of_string).
Local Abbreviation parse_loop := (parse_loop datetime fromisoformat int_of_string).
Local Abbreviation row_values := (row_values datetime fromisoformat int_of_string).
Local Abbreviation well_formed := (well_formed datetime fromisoformat int_of_string).
Local Abbreviation time_field := (time_field datetime fromisoformat).
Local Abbreviation int_field := (int_field int_of_string).
Local Abbreviation float_field := (float_field int_of_string).
Local Abbreviation bad_numeric := (bad_numeric int_of_string).

Local Abbreviation push := (push datetime).

#[local] Arguments SFmul : simpl never.
#[local] Arguments truediv : simpl never.
#[local] Arguments getitem : simpl never.
#[local] Arguments py_int : simpl never.
#[local] Arguments in_float_range : simpl never.

(** Reading a timestamp: the code's two steps against [time_field]. *)
Lemma read_time {A : Type} (r : record) (K : datetime -> Exc A) :
  (v ← getitem r "time"; t ← datetime_fromisoformat datetime fromisoformat v; K t)
  = match time_field r with
    | Some t => K t
    | None => inl (field_error r "time")
    end.
Proof.
  unfold getitem, time_field, field_error, datetime_fromisoformat.
  destruct (r !! Some "time") as [[s| |l]|]; try reflexivity.
  simpl. destruct (fromisoformat s); reflexivity.
Qed.

(** Reading an integer: the code's two steps against [int_field]. *)
Lemma read_int {A : Type} (r : record) (k : string) (K : Z -> Exc A) :
  (v ← getitem r k; n ← py_int int_of_string v; K n)
  = match int_field r k with
    | Some n => K n
    | None => inl (field_error r k)
    end.
Proof.
  unfold getitem, int_field, field_error, py_int.
  destruct (r !! Some k) as [[s| |l]|]; try reflexivity.
  simpl. destruct (int_of_string s); reflexivity.
Qed.

Lemma read_MB {A : Type} (n : Z) (K : float -> Exc A) :
  (x ← truediv n (SFmul prec emax lit_1024_0 lit_1024_0); K x)
  = if in_float_range n then K (bytes_to_mebibytes n) else inl OverflowError.
Proof. rewrite truediv_MB. destruct (in_float_range n); reflexivity. Qed.

Lemma read_ms {A : Type} (n : Z) (K : float -> Exc A) :
  (x ← truediv n lit_1e6; K x)
  = if in_float_range n then K (ns_to_ms n) else inl OverflowError.
Proof. rewrite truediv_1e6. destruct (in_float_range n); reflexivity. Qed.

Lemma field_error_conversion (r : record) (k : string) :
  is_conversion_error (field_error r k) = true.
Proof. unfold field_error. destruct (r !! Some k) as [[]|]; reflexivity. Qed.

(** One turn of the loop: the record's six values are appended, or
    the first field that does not parse raises. *)
Lemma loop_body_spec (s : Series datetime) (r : record) :
  match row_values r with
  | Some v => loop_body s r = inr (push s v)
  | None => exists e, loop_body s r = inl e /\ is_conversion_error e = true
  end.
Proof.
  unfold loop_body, row_values, float_field.
  rewrite read_time.
  destruct (time_field r) as [t|]; simpl; [|eauto using field_error_conversion].
  rewrite read_int.
  destruct (int_field r "alloc") as [a|]; simpl; [|eauto using field_error_conversion].
  rewrite read_MB.
  destruct (in_float_range a); simpl; [|eauto].
  rewrite read_int.
  destruct (int_field r "heap_alloc") as [h|]; simpl; [|eauto using field_error_conversion].
  rewrite read_MB.
  destruct (in_float_range h); simpl; [|eauto].
  rewrite read_int.
  destruct (int_field r "num_goroutine") as [g|]; simpl; [|eauto using field_error_conversion].
  rewrite read_int.
  destruct (int_field r "num_gc") as [c|]; simpl; [|eauto using field_error_conversion].
  rewrite read_int.
  destruct (int_field r "pause_total_ns") as [p|]; simpl; [|eauto using field_error_conversion].
  rewrite read_ms.
  destruct (in_float_range p); simpl; [|eauto].
  reflexivity.
Qed.

(** The lists after several more records. *)
Lemma foldl_push_times (vs : list (Sample6 datetime)) (s : Series datetime) :
  times (foldl push s vs) = times s ++ (v_time <$> vs)
  /\ alloc (foldl push s vs) = alloc s ++ (v_allocMB <$> vs)
  /\ heap_alloc (foldl push s vs) = heap_alloc s ++ (v_heapAllocMB <$> vs)
  /\ goroutines (foldl push s vs) = goroutines s ++ (v_goroutines <$> vs)
  /\ num_gc (foldl push s vs) = num_gc s ++ (v_numGC <$> vs)
  /\ pause_ns (foldl push s vs) = pause_ns s ++ (v_pauseMS <$> vs).
Proof.
  revert s. induction vs as [|v vs IH]; intros s; simpl.
  - rewrite !app_nil_r. repeat split.
  - destruct (IH (push s v)) as (E1 & E2 & E3 & E4 & E5 & E6).
    rewrite E1, E2, E3, E4, E5, E6. simpl.
    rewrite <- !app_assoc. repeat split.
Qed.

(** The loop on records that all parse: it ends normally, with the
    values of the records appended in order. *)
Lemma parse_loop_ok (recs : list record) :
  forall (vs : list (Sample6 datetime)) (s : Series datetime),
    Forall2 (fun r v => row_values r = Some v) recs vs ->
    parse_loop recs s = inr (foldl push s vs).
Proof.
  induction recs as [|r recs IH]; intros vs s HF; inversion HF; subst; simpl.
  - reflexivity.
  - pose proof (loop_body_spec s r) as Hb.
    match goal with H : row_values r = Some _ |- _ => rewrite H in Hb end.
    rewrite Hb. simpl. apply IH. assumption.
Qed.

(** The loop on records one of which does not parse: it raises. *)
Lemma parse_loop_fail (recs : list record) :
  forall s : Series datetime,
    Exists (fun r => row_values r = None) recs ->
    exists e, parse_loop recs s = inl e /\ is_conversion_error e = true.
Proof.
  induction recs as [|r recs IH]; intros s HE.
  - inversion HE.
  - simpl. pose proof (loop_body_spec s r) as Hb.
    destruct (row_values r) as [v|] eqn:Hv.
    + rewrite Hb. simpl. apply IH.
      inversion HE; subst; [congruence | assumption].
    + destruct Hb as (e & He & Hc). rewrite He. simpl. eauto.
Qed.

Lemma well_formed_values (recs : list record) :
  Forall well_formed recs ->
  exists vs, Forall2 (fun r v => row_values r = Some v) recs vs.
Proof.
  induction 1 as [|r recs [v Hv] _ [vs IH]].
  - exists []. constructor.
  - exists (v :: vs). constructor; assumption.
Qed.

(** A record with a bad numeric field has no values. *)
Lemma bad_numeric_no_values (r : record) :
  bad_numeric r -> row_values r = None.
Proof.
  unfold bad_numeric, numeric_columns, row_values, float_field.
  intros HE.
  destruct (time_field r); [simpl|reflexivity].
  repeat match goal with
         | H : Exists _ (_ :: _) |- _ => apply Exists_cons in H; destruct H as [H|H]
         | H : Exists _ [] |- _ => inversion H
         end;
  repeat match goal with
         | |- context [int_field r ?k] =>
             destruct (int_field r k) eqn:?; simpl; try reflexivity; try discriminate
         | |- context [in_float_range ?n] =>
             destruct (in_float_range n); simpl; try reflexivity
         end.
Qed.
(** The loop on well-formed records: the six lists have one element
    a record, in the order of the records. *)
Lemma parse_loop_aligned (recs : list record) :
  Forall well_formed recs ->
  exists s : Series datetime,
    parse_loop recs (empty_series datetime) = inr s
    /\ length (times s) = length recs
    /\ length (alloc s) = length recs
    /\ length (heap_alloc s) = length recs
    /\ length (goroutines s) = length recs
    /\ length (num_gc s) = length recs
    /\ length (pause_ns s) = length recs
    /\ forall (i : nat) (r : record),
         recs !! i = Some r -> series_at datetime s i = row_values r.
Proof.
  intros HF. destruct (well_formed_values recs HF) as [vs Hvs].
  exists (foldl push (empty_series datetime) vs).
  destruct (foldl_push_times vs (empty_series datetime))
    as (E1 & E2 & E3 & E4 & E5 & E6).
  pose proof (Forall2_length _ _ _ Hvs) as Hlen.
  split; [apply parse_loop_ok; assumption|].
  unfold series_at. rewrite E1, E2, E3, E4, E5, E6. simpl.
  rewrite !length_fmap.
  repeat (split; [symmetry; exact Hlen|]).
  intros i r Hi.
  destruct (Forall2_lookup_l _ _ _ _ _ Hvs Hi) as (v & Hv & Hr).
  rewrite !list_lookup_fmap, Hv, Hr. destruct v; reflexivity.
Qed.

(** [loop_body] looks at the six columns only. *)
Lemma loop_body_agree (s : Series datetime) (r1 r2 : record) :
  agree r1 r2 -> loop_body s r1 = loop_body s r2.
Proof.
  unfold agree, columns. intros HA.
  repeat match goal with
         | H : Forall _ (_ :: _) |- _ =>
             let E := fresh "E" in apply Forall_cons in H; destruct H as [E H]
         end.
  unfold loop_body, getitem.
  rewrite E, E0, E1, E2, E3, E4. reflexivity.
Qed.

Lemma parse_loop_agree (recs1 recs2 : list record) :
  Forall2 agree recs1 recs2 ->
  forall s : Series datetime, parse_loop recs1 s = parse_loop recs2 s.
Proof.
  induction 1 as [|r1 r2 recs1 recs2 Hr _ IH]; intros s; simpl.
  - reflexivity.
  - rewrite (loop_body_agree s r1 r2 Hr).
    destruct (loop_body s r2) as [e|s']; simpl; [reflexivity|apply IH].
Qed.
(** Where the six values of a record come from. *)
Lemma row_values_inv (r : record) (v : Sample6 datetime) :
  row_values r = Some v ->
  exists a h p : Z,
    time_field r = Some (v_time v)
    /\ int_field r "alloc" = Some a /\ v_allocMB v = bytes_to_mebibytes a
    /\ int_field r "heap_alloc" = Some h /\ v_heapAllocMB v = bytes_to_mebibytes h
    /\ int_field r "num_goroutine" = Some (v_goroutines v)
    /\ int_field r "num_gc" = Some (v_numGC v)
    /\ int_field r "pause_total_ns" = Some p /\ v_pauseMS v = ns_to_ms p.
Proof.
  unfold row_values, float_field. intros Hv.
  destruct (time_field r) as [t|]; simpl in Hv; [|discriminate].
  destruct (int_field r "alloc") as [a|]; simpl in Hv; [|discriminate].
  destruct (in_float_range a); simpl in Hv; [|discriminate].
  destruct (int_field r "heap_alloc") as [h|]; simpl in Hv; [|discriminate].
  destruct (in_float_range h); simpl in Hv; [|discriminate].
  destruct (int_field r "num_goroutine") as [g|]; simpl in Hv; [|discriminate].
  destruct (int_field r "num_gc") as [c|]; simpl in Hv; [|discriminate].
  destruct (int_field r "pause_total_ns") as [p|]; simpl in Hv; [|discriminate].
  destruct (in_float_range p); simpl in Hv; [|discriminate].
  inversion Hv; subst v; simpl. exists a, h, p. repeat split.
Qed.

(** The six lists at an index where [series_at] has a value. *)
Lemma series_at_inv (s : Series datetime) (i : nat) (v : Sample6 datetime) :
  series_at datetime s i = Some v ->
  times s !! i = Some (v_time v)
  /\ alloc s !! i = Some (v_allocMB v)
  /\ heap_alloc s !! i = Some (v_heapAllocMB v)
  /\ goroutines s !! i = Some (v_goroutines v)
  /\ num_gc s !! i = Some (v_numGC v)
  /\ pause_ns s !! i = Some (v_pauseMS v).
Proof.
  unfold series_at. intros Hv.
  destruct (times s !! i); simpl in Hv; [|discriminate].
  destruct (alloc s !! i); simpl in Hv; [|discriminate].
  destruct (heap_alloc s !! i); simpl in Hv; [|discriminate].
  destruct (goroutines s !! i); simpl in Hv; [|discriminate].
  destruct (num_gc s !! i); simpl in Hv; [|discriminate].
  destruct (pause_ns s !! i); simpl in Hv; [|discriminate].
  inversion Hv; subst v; simpl. repeat split.
Qed.
(** On records that all parse, the counts of the two integer lists are
    those of the records: the lists can be plotted exactly when the
    counts of every record can. *)
Lemma parse_loop_counts (recs : list record) :
  Forall well_formed recs ->
  exists s : Series datetime,
    parse_loop recs (empty_series datetime) = inr s
    /\ (ints_fit (goroutines s) && ints_fit (num_gc s) = true
        <-> Forall (fun r => counts_plottable int_of_string r = true) recs).
Proof.
  intros HF. destruct (well_formed_values recs HF) as [vs Hvs].
  exists (foldl push (empty_series datetime) vs).
  split; [apply parse_loop_ok; exact Hvs|].
  destruct (foldl_push_times vs (empty_series datetime))
    as (_ & _ & _ & E4 & E5 & _).
  rewrite E4, E5. simpl. clear E4 E5 HF.
  induction Hvs as [|r v recs vs Hv _ IH].
  - split; [constructor|reflexivity].
  - destruct (row_values_inv _ _ Hv) as (a & h & p & _ & _ & _ & _ & _ & Hg & Hc & _).
    rewrite Forall_cons, <- IH. unfold counts_plottable, ints_fit.
    fold int_field. rewrite Hg, Hc. simpl.
    rewrite !andb_true_iff. tauto.
Qed.
End ParserFacts.



(** ** The process *)

Section ProcessFacts.
Variable datetime : Type.
Variable fromisoformat : string -> option datetime.
Variable int_of_string : string -> option Z.

Local Abbreviation parse_loop := (parse_loop datetime fromisoformat int_of_string).
Local Abbreviation row_values := (row_values datetime fromisoformat int_of_string).
Local Abbreviation well_formed := (well_formed datetime fromisoformat int_of_string).
Local Abbreviation run := (run datetime fromisoformat int_of_string).
Local Abbreviation script := (script datetime fromisoformat int_of_string).
Local Abbreviation parse_input := (parse_input datetime fromisoformat int_of_string).
Local Abbreviation files_t := (gmap string (content datetime)).

Lemma resolve_CSV_PATH : resolve CSV_PATH = CSV_PATH.
Proof. reflexivity. Qed.

(** The guard, when the input file is missing. *)
Lemma check_input_missing (files : files_t) :
  files !! CSV_PATH = None ->
  check_input datetime (start datetime files)
  = (inl (SystemExit 1),
     mkWorld files ["CSV not found: bench_sustained_metrics_round2.csv"] []
             [EvPrint "CSV not found: bench_sustained_metrics_round2.csv"]).
Proof.
  intros Hf. unfold check_input, os_path_exists, mbind, M_bind, start.
  cbn [fs]. rewrite resolve_CSV_PATH, Hf.
  reflexivity.
Qed.

(** The guard, when the input file is there. *)
Lemma check_input_present (files : files_t) (c : content datetime) :
  files !! CSV_PATH = Some c ->
  check_input datetime (start datetime files) = (inr tt, start datetime files).
Proof.
  intros Hf. unfold check_input, os_path_exists, mbind, M_bind, start.
  cbn [fs]. rewrite resolve_CSV_PATH, Hf.
  reflexivity.
Qed.

(** What [plt.plot] checks, on a list of floats and on a list of ints. *)
Lemma plottable_floats (l : list float) : forallb plottable (FloatV <$> l) = true.
Proof. induction l as [|x l IH]; [reflexivity|exact IH]. Qed.

Lemma plottable_ints (l : list Z) : forallb plottable (IntV <$> l) = ints_fit l.
Proof.
  unfold ints_fit. induction l as [|n l IH]; [reflexivity|].
  simpl. rewrite <- IH. reflexivity.
Qed.

(** The four render blocks, run one after the other on any lists: the
    second and the third stop at [plt.plot] when a count is beyond the
    range of a float. *)
Lemma render_all (files : files_t) (s : Series datetime) :
  (_ ← plot_alloc datetime s; _ ← plot_goroutines datetime s;
   _ ← plot_numgc datetime s; _ ← plot_pause datetime s;
   (mret s : M datetime (Series datetime)))
    (start datetime files)
  = render_result datetime files s.
Proof.
  unfold plot_alloc, plot_goroutines, plot_numgc, plot_pause, plt_plot, render_result.
  rewrite !plottable_floats, !plottable_ints.
  destruct (ints_fit (goroutines s)); [|reflexivity].
  destruct (ints_fit (num_gc s)); reflexivity.
Qed.

Lemma bind_run {A B : Type} (m : M datetime A) (f : A -> M datetime B)
    (w : World datetime) :
  (m ≫= f) w
  = match m w with
    | (inl e, w') => (inl e, w')
    | (inr x, w') => f x w'
    end.
Proof. reflexivity. Qed.

(** Reading the input and running the loop changes nothing in the
    process state. *)
Lemma parse_input_text (files : files_t) (rows : list (list string)) :
  files !! CSV_PATH = Some (Text rows) ->
  parse_input (start datetime files)
  = (parse_loop (DictReader rows) (empty_series datetime), start datetime files).
Proof.
  intros Hf. unfold parse_input. rewrite bind_run.
  unfold read_rows, start. cbn [fs]. rewrite resolve_CSV_PATH, Hf.
  reflexivity.
Qed.

(** The run when the input file is missing. *)
Lemma run_missing (files : files_t) :
  files !! CSV_PATH = None ->
  run files
  = (inl (SystemExit 1),
     mkWorld files ["CSV not found: bench_sustained_metrics_round2.csv"] []
             [EvPrint "CSV not found: bench_sustained_metrics_round2.csv"]).
Proof.
  intros Hf. unfold run, script.
  rewrite bind_run, (check_input_missing _ Hf). reflexivity.
Qed.

(** The run when the input file is a text file: the loop decides. *)
Lemma run_text (files : files_t) (rows : list (list string)) :
  files !! CSV_PATH = Some (Text rows) ->
  run files
  = match parse_loop (DictReader rows) (empty_series datetime) with
    | inr s => render_result datetime files s
    | inl e => (inl e, start datetime files)
    end.
Proof.
  intros Hf. unfold run, script.
  rewrite bind_run, (check_input_present _ _ Hf).
  rewrite bind_run, (parse_input_text _ _ Hf).
  destruct (parse_loop _ _) as [e|s]; [reflexivity|].
  apply render_all.
Qed.

(** The run when the input path holds an image. *)
Lemma run_image (files : files_t) (f : Figure datetime) :
  files !! CSV_PATH = Some (Image f) ->
  run files = (inl UnicodeDecodeError, start datetime files).
Proof.
  intros Hf. unfold run, script.
  rewrite bind_run, (check_input_present _ _ Hf).
  rewrite bind_run. unfold parse_input. rewrite bind_run.
  unfold read_rows, start. cbn [fs]. rewrite resolve_CSV_PATH, Hf.
  reflexivity.
Qed.
End ProcessFacts.

(** ** The claims about the parse loop *)

Section ParseClaims.
Variable datetime : Type.
Variable fromisoformat : string -> option datetime.
Variable int_of_string : string -> option Z.

Local Abbreviation parse_loop := (parse_loop datetime fromisoformat int_of_string).
Local Abbreviation parse_input := (parse_input datetime fromisoformat int_of_string).
Local Abbreviation row_values := (row_values datetime fromisoformat int_of_string).
Local Abbreviation well_formed := (well_formed datetime fromisoformat int_of_string).
Local Abbreviation int_field := (int_field int_of_string).
Local Abbreviation run := (run datetime fromisoformat int_of_string).
Local Abbreviation files_t := (gmap string (content datetime)).

(** C1. For an input file whose N records are all well formed, the
    parse loop ends normally and leaves the process state as it was;
    each of the six lists (times, alloc, heap_alloc, goroutines,
    num_gc, pause_ns) has length N, and the values at index i of the
    lists are the values of record i: the lists follow the order of
    the file.  (It holds for every N, also for N = 0.) *)
Theorem C1_series_aligned_with_rows (files : files_t) (rows : list (list string)) :
  files !! CSV_PATH = Some (Text rows) ->
  Forall well_formed (DictReader rows) ->
  exists s : Series datetime,
    parse_input (start datetime files) = (inr s, start datetime files)
    /\ length (times s) = length (DictReader rows)
    /\ length (alloc s) = length (DictReader rows)
    /\ length (heap_alloc s) = length (DictReader rows)
    /\ length (goroutines s) = length (DictReader rows)
    /\ length (num_gc s) = length (DictReader rows)
    /\ length (pause_ns s) = length (DictReader rows)
    /\ forall (i : nat) (r : record),
         DictReader rows !! i = Some r ->
         is_Some (row_values r) /\ series_at datetime s i = row_values r.
Proof.
  intros Hf HF.
  destruct (parse_loop_aligned _ fromisoformat int_of_string _ HF)
    as (s & Hs & L1 & L2 & L3 & L4 & L5 & L6 & Hi).
  exists s. rewrite (parse_input_text _ fromisoformat int_of_string _ _ Hf), Hs.
  repeat (split; [assumption || reflexivity|]).
  intros i r Hr. split; [|apply Hi; assumption].
  apply (Forall_lookup_1 _ _ _ _ HF Hr).
Qed.

(** C4. On well-formed records the loop ends normally, and for every
    record, at its index, the alloc list holds the integer in the
    record's [alloc] field divided by 1048576 (the value of the
    script's [1024.0*1024.0]), as the float division [int / float]
    computes it, and the heap_alloc list the same for [heap_alloc];
    1048576 bytes give 1.0 and 0 bytes give 0.0; and up to 2^53 bytes
    the float is the quotient itself, without any rounding. *)
Theorem C4_bytes_to_mebibytes (recs : list record) :
  Forall well_formed recs ->
  exists s : Series datetime,
    parse_loop recs (empty_series datetime) = inr s
    /\ forall (i : nat) (r : record),
         recs !! i = Some r ->
         exists a h : Z,
           int_field r "alloc" = Some a
           /\ int_field r "heap_alloc" = Some h
           /\ alloc s !! i = Some (SFdiv prec emax (Z2SF a) (Z2SF 1048576))
           /\ heap_alloc s !! i = Some (SFdiv prec emax (Z2SF h) (Z2SF 1048576))
           /\ (a = 1048576 -> alloc s !! i = Some lit_1_0)
           /\ (a = 0 -> alloc s !! i = Some lit_0_0)
           /\ (Z.abs a <= 2 ^ 53 -> is_exact_quotient (bytes_to_mebibytes a) a 1048576)
           /\ (Z.abs h <= 2 ^ 53 -> is_exact_quotient (bytes_to_mebibytes h) h 1048576).
Proof.
  intros HF.
  destruct (parse_loop_aligned _ fromisoformat int_of_string _ HF)
    as (s & Hs & _ & _ & _ & _ & _ & _ & Hi).
  exists s. split; [assumption|].
  intros i r Hr. specialize (Hi i r Hr).
  destruct (Forall_lookup_1 _ _ _ _ HF Hr) as [v Hv].
  rewrite Hv in Hi.
  destruct (row_values_inv _ _ _ _ _ Hv)
    as (a & h & p & _ & Ha & Ea & Hh & Eh & _).
  destruct (series_at_inv _ _ _ _ Hi) as (_ & Sa & Sh & _).
  exists a, h. rewrite Sa, Sh, Ea, Eh.
  repeat (split; [assumption || reflexivity|]).
  split; [intros ->; reflexivity|].
  split; [intros ->; reflexivity|].
  split; intros Hle; apply bytes_to_mebibytes_exact; exact Hle.
Qed.

(** C5. On well-formed records the loop ends normally, and for every
    record, at its index, the pause_ns list holds the integer in the
    record's [pause_total_ns] field divided by 1000000 (the value of
    the script's [1e6]), as the float division [int / float] computes
    it; 1000000 ns give 1.0. *)
Theorem C5_ns_to_ms (recs : list record) :
  Forall well_formed recs ->
  exists s : Series datetime,
    parse_loop recs (empty_series datetime) = inr s
    /\ forall (i : nat) (r : record),
         recs !! i = Some r ->
         exists p : Z,
           int_field r "pause_total_ns" = Some p
           /\ pause_ns s !! i = Some (SFdiv prec emax (Z2SF p) (Z2SF 1000000))
           /\ (p = 1000000 -> pause_ns s !! i = Some lit_1_0).
Proof.
  intros HF.
  destruct (parse_loop_aligned _ fromisoformat int_of_string _ HF)
    as (s & Hs & _ & _ & _ & _ & _ & _ & Hi).
  exists s. split; [assumption|].
  intros i r Hr. specialize (Hi i r Hr).
  destruct (Forall_lookup_1 _ _ _ _ HF Hr) as [v Hv].
  rewrite Hv in Hi.
  destruct (row_values_inv _ _ _ _ _ Hv)
    as (a & h & p & _ & _ & _ & _ & _ & _ & _ & Hp & Ep).
  destruct (series_at_inv _ _ _ _ Hi) as (_ & _ & _ & _ & _ & Sp).
  exists p. rewrite Sp, Ep.
  repeat (split; [assumption || reflexivity|]).
  intros ->; reflexivity.
Qed.
End ParseClaims.

(** ** The claims about the whole run *)

Section RunClaims.
Variable datetime : Type.
Variable fromisoformat : string -> option datetime.
Variable int_of_string : string -> option Z.

Local Abbreviation parse_loop := (parse_loop datetime fromisoformat int_of_string).
Local Abbreviation row_values := (row_values datetime fromisoformat int_of_string).
Local Abbreviation well_formed := (well_formed datetime fromisoformat int_of_string).
Local Abbreviation bad_numeric := (bad_numeric int_of_string).
Local Abbreviation counts_plottable := (counts_plottable int_of_string).
Local Abbreviation run := (run datetime fromisoformat int_of_string).
Local Abbreviation files_t := (gmap string (content datetime)).

(** A run on a well-formed text input reaches the four render blocks. *)
Lemma run_well_formed (files : files_t) (rows : list (list string)) :
  files !! CSV_PATH = Some (Text rows) ->
  Forall well_formed (DictReader rows) ->
  exists s : Series datetime,
    parse_loop (DictReader rows) (empty_series datetime) = inr s
    /\ run files = render_result datetime files s
    /\ (ints_fit (goroutines s) && ints_fit (num_gc s) = true
        <-> Forall (fun r => counts_plottable r = true) (DictReader rows)).
Proof.
  intros Hf HF.
  destruct (parse_loop_counts _ fromisoformat int_of_string _ HF) as (s & Hs & Hc).
  exists s. split; [assumption|]. split; [|exact Hc].
  rewrite (run_text _ fromisoformat int_of_string _ _ Hf), Hs. reflexivity.
Qed.

(** A run on a well-formed text input whose counts can be plotted
    draws the four charts. *)
Lemma run_plottable (files : files_t) (rows : list (list string)) :
  files !! CSV_PATH = Some (Text rows) ->
  Forall well_formed (DictReader rows) ->
  Forall (fun r => counts_plottable r = true) (DictReader rows) ->
  exists s : Series datetime,
    parse_loop (DictReader rows) (empty_series datetime) = inr s
    /\ run files = (inr s, world_after datetime files s).
Proof.
  intros Hf HF HC.
  destruct (run_well_formed _ _ Hf HF) as (s & Hs & Hrun & Hfit).
  exists s. split; [assumption|].
  apply Hfit, andb_true_iff in HC. destruct HC as [Hg Hc].
  rewrite Hrun. unfold render_result. rewrite Hg, Hc. reflexivity.
Qed.

(** The render blocks end normally only when both count lists can be
    plotted, and then with the four charts. *)
Lemma render_result_inr (files : files_t) (s s' : Series datetime) (w : World datetime) :
  render_result datetime files s = (inr s', w) ->
  s' = s /\ w = world_after datetime files s
  /\ ints_fit (goroutines s) = true /\ ints_fit (num_gc s) = true.
Proof.
  unfold render_result.
  destruct (ints_fit (goroutines s)); [|discriminate].
  destruct (ints_fit (num_gc s)); [|discriminate].
  intros H. inversion H. repeat split.
Qed.

(** A run that ends normally drew the four charts. *)
Lemma run_inr_inv (files : files_t) (s : Series datetime) (w : World datetime) :
  run files = (inr s, w) -> w = world_after datetime files s.
Proof.
  intros Hrun.
  destruct (files !! CSV_PATH) as [[rows|f]|] eqn:Hf.
  - rewrite (run_text _ fromisoformat int_of_string _ _ Hf) in Hrun.
    destruct (parse_loop _ _) as [e|s']; [discriminate|].
    destruct (render_result_inr _ _ _ _ Hrun) as (-> & -> & _). reflexivity.
  - rewrite (run_image _ fromisoformat int_of_string _ _ Hf) in Hrun. discriminate.
  - rewrite (run_missing _ fromisoformat int_of_string _ Hf) in Hrun. discriminate.
Qed.

(** A run that ends normally had counts that can be plotted. *)
Lemma run_inr_fit (files : files_t) (s : Series datetime) (w : World datetime) :
  run files = (inr s, w) ->
  ints_fit (goroutines s) = true /\ ints_fit (num_gc s) = true.
Proof.
  intros Hrun.
  destruct (files !! CSV_PATH) as [[rows|f]|] eqn:Hf.
  - rewrite (run_text _ fromisoformat int_of_string _ _ Hf) in Hrun.
    destruct (parse_loop _ _) as [e|s']; [discriminate|].
    destruct (render_result_inr _ _ _ _ Hrun) as (-> & _ & Hg & Hc). split; assumption.
  - rewrite (run_image _ fromisoformat int_of_string _ _ Hf) in Hrun. discriminate.
  - rewrite (run_missing _ fromisoformat int_of_string _ Hf) in Hrun. discriminate.
Qed.

(** The files after the four charts: the four names hold the charts,
    every other name is as before. *)
Lemma files_after_lookup (files : files_t) (s : Series datetime) :
  files_after datetime files s !! "bench_alloc.png" = Some (Image (chart_alloc datetime s))
  /\ files_after datetime files s !! "bench_goroutines.png"
     = Some (Image (chart_goroutines datetime s))
  /\ files_after datetime files s !! "bench_numgc.png"
     = Some (Image (chart_numgc datetime s))
  /\ files_after datetime files s !! "bench_pause.png"
     = Some (Image (chart_pause datetime s))
  /\ forall p : string, p ∉ output_names -> files_after datetime files s !! p = files !! p.
Proof.
  unfold files_after, output_names.
  repeat split; try (by simplify_map_eq).
  intros p Hp.
  rewrite !lookup_insert_ne; [reflexivity|..];
    intros <-; apply Hp; set_solver.
Qed.


(** C3. When a record of the input has a numeric field (alloc,
    heap_alloc, num_goroutine, num_gc, pause_total_ns) that is absent
    or not numeric, the run ends with an uncaught [KeyError],
    [TypeError], [ValueError] or [OverflowError], a non-zero exit
    status, before any pyplot call: no file is created or changed,
    nothing is printed, the trace is empty; and a second run on the
    files left by the first ends in the same way. *)
Theorem C3_bad_row_aborts_before_rendering (files : files_t) (rows : list (list string)) :
  files !! CSV_PATH = Some (Text rows) ->
  Exists bad_numeric (DictReader rows) ->
  exists (e : exn) (w : World datetime),
    run files = (inl e, w)
    /\ is_conversion_error e = true
    /\ exit_status (run files).1 <> 0
    /\ fs w = files
    /\ stdout w = []
    /\ trace w = []
    /\ figs w = []
    /\ run (fs w) = (inl e, w).
Proof.
  intros Hf HE.
  assert (Exists (fun r => row_values r = None) (DictReader rows)) as HN.
  { eapply Exists_impl; [exact HE|]. intros r. apply bad_numeric_no_values. }
  destruct (parse_loop_fail _ fromisoformat int_of_string _ (empty_series datetime) HN)
    as (e & He & Hc).
  assert (run files = (inl e, start datetime files)) as Hrun.
  { rewrite (run_text _ fromisoformat int_of_string _ _ Hf), He. reflexivity. }
  exists e, (start datetime files). rewrite Hrun. simpl.
  repeat (split; [assumption || reflexivity|]).
  split; [|repeat split; assumption].
  destruct e; simpl in *; discriminate.
Qed.



(** C8. Two input files whose records agree, one by one, on the
    columns time, alloc, heap_alloc, num_goroutine, num_gc and
    pause_total_ns, whatever else they hold, give the same result of
    the parse loop (the same six lists, or the same exception), the
    same printed lines, the same trace and, when the run ends
    normally, the same four charts. *)
Theorem C8_only_six_columns_matter (files1 files2 : files_t)
    (rows1 rows2 : list (list string)) :
  files1 !! CSV_PATH = Some (Text rows1) ->
  files2 !! CSV_PATH = Some (Text rows2) ->
  Forall2 agree (DictReader rows1) (DictReader rows2) ->
  parse_loop (DictReader rows1) (empty_series datetime)
  = parse_loop (DictReader rows2) (empty_series datetime)
  /\ (run files1).1 = (run files2).1
  /\ stdout (run files1).2 = stdout (run files2).2
  /\ trace (run files1).2 = trace (run files2).2
  /\ forall s : Series datetime,
       (run files1).1 = inr s ->
       forall p : string, p ∈ output_names ->
         is_Some (fs (run files1).2 !! p)
         /\ fs (run files1).2 !! p = fs (run files2).2 !! p.
Proof.
  intros Hf1 Hf2 HA.
  pose proof (parse_loop_agree _ fromisoformat int_of_string _ _ HA
                (empty_series datetime)) as HP.
  split; [exact HP|].
  rewrite (run_text _ fromisoformat int_of_string _ _ Hf1).
  rewrite (run_text _ fromisoformat int_of_string _ _ Hf2).
  rewrite HP.
  destruct (parse_loop (DictReader rows2) (empty_series datetime)) as [e|s]; simpl.
  - repeat split; discriminate.
  - unfold render_result.
    destruct (ints_fit (goroutines s)); [destruct (ints_fit (num_gc s))|]; simpl;
      [|repeat split; discriminate ..].
    repeat (split; [reflexivity|]).
    intros s' _ p Hp.
    destruct (files_after_lookup files1 s) as (A1 & A2 & A3 & A4 & _).
    destruct (files_after_lookup files2 s) as (B1 & B2 & B3 & B4 & _).
    unfold output_names in Hp.
    repeat (apply elem_of_cons in Hp; destruct Hp as [->|Hp];
            [split; [eexists; eassumption|congruence]|]).
    inversion Hp.
Qed.

(** C9. On an input file that has a header row and nothing else, the
    run ends normally with exit status 0: the six lists are empty, the
    four image files are written, and the four [wrote <path>] lines
    are printed. *)
Theorem C9_header_only_input (files : files_t) (header : list string) :
  files !! CSV_PATH = Some (Text [header]) ->
  exists (s : Series datetime) (w : World datetime),
    run files = (inr s, w)
    /\ exit_status (run files).1 = 0
    /\ times s = [] /\ alloc s = [] /\ heap_alloc s = []
    /\ goroutines s = [] /\ num_gc s = [] /\ pause_ns s = []
    /\ (forall p : string, p ∈ output_names ->
          exists f : Figure datetime, fs w !! p = Some (Image f))
    /\ resolve <$> saved_paths (trace w) = output_names
    /\ stdout w = ["wrote ./bench_alloc.png"; "wrote ./bench_goroutines.png";
                   "wrote ./bench_numgc.png"; "wrote ./bench_pause.png"].
Proof.
  intros Hf.
  pose proof (run_text _ fromisoformat int_of_string _ _ Hf) as Hrun.
  simpl in Hrun.
  exists (empty_series datetime), (world_after datetime files (empty_series datetime)).
  rewrite Hrun. simpl.
  repeat (split; [reflexivity|]).
  split; [|split; reflexivity].
  destruct (files_after_lookup files (empty_series datetime)) as (F1 & F2 & F3 & F4 & _).
  intros p Hp. unfold output_names in Hp.
  repeat (apply elem_of_cons in Hp; destruct Hp as [->|Hp]; [eauto|]).
  inversion Hp.
Qed.

(** C10. On every run that ends normally, the four render blocks run
    one after the other from the state the parse loop left: the first
    writes [bench_alloc.png], closes its figure and prints its line,
    and only then the second starts, which writes
    [bench_goroutines.png], and so on for [bench_numgc.png] and
    [bench_pause.png]; each block adds its one file to the files the
    block before it left.  The calls happen in this order: a new
    figure, its plots, [savefig], [close], and the [wrote <path>]
    line, four times; no figure is left open. *)
Theorem C10_fixed_order (files : files_t) (s : Series datetime) (w : World datetime) :
  run files = (inr s, w) ->
  trace w
  = [EvFigure; EvPlot "Alloc (MB)"; EvPlot "HeapAlloc (MB)";
     EvSavefig "./bench_alloc.png"; EvClose; EvPrint "wrote ./bench_alloc.png";
     EvFigure; EvPlot "Goroutines";
     EvSavefig "./bench_goroutines.png"; EvClose; EvPrint "wrote ./bench_goroutines.png";
     EvFigure; EvPlot "NumGC";
     EvSavefig "./bench_numgc.png"; EvClose; EvPrint "wrote ./bench_numgc.png";
     EvFigure; EvPlot "PauseTotal (ms)";
     EvSavefig "./bench_pause.png"; EvClose; EvPrint "wrote ./bench_pause.png"]
  /\ stdout w = ["wrote ./bench_alloc.png"; "wrote ./bench_goroutines.png";
                 "wrote ./bench_numgc.png"; "wrote ./bench_pause.png"]
  /\ figs w = []
  /\ exists w1 w2 w3 : World datetime,
       plot_alloc datetime s (start datetime files) = (inr tt, w1)
       /\ plot_goroutines datetime s w1 = (inr tt, w2)
       /\ plot_numgc datetime s w2 = (inr tt, w3)
       /\ plot_pause datetime s w3 = (inr tt, w)
       /\ fs w1 = <["bench_alloc.png" := Image (chart_alloc datetime s)]> files
       /\ stdout w1 = ["wrote ./bench_alloc.png"] /\ figs w1 = []
       /\ fs w2 = <["bench_goroutines.png" := Image (chart_goroutines datetime s)]> (fs w1)
       /\ stdout w2 = ["wrote ./bench_alloc.png"; "wrote ./bench_goroutines.png"]
       /\ figs w2 = []
       /\ fs w3 = <["bench_numgc.png" := Image (chart_numgc datetime s)]> (fs w2)
       /\ stdout w3 = ["wrote ./bench_alloc.png"; "wrote ./bench_goroutines.png";
                       "wrote ./bench_numgc.png"]
       /\ figs w3 = []
       /\ fs w = <["bench_pause.png" := Image (chart_pause datetime s)]> (fs w3).
Proof.
  intros Hrun. destruct (run_inr_fit _ _ _ Hrun) as [Hg Hc].
  rewrite (run_inr_inv _ _ _ Hrun). repeat (split; [reflexivity|]).
  exists (world_after_alloc datetime files s), (world_after_goroutines datetime files s),
    (world_after_numgc datetime files s).
  split; [unfold plot_alloc, plt_plot; rewrite !plottable_floats; reflexivity|].
  split; [unfold plot_goroutines, plt_plot; rewrite plottable_ints, Hg; reflexivity|].
  split; [unfold plot_numgc, plt_plot; rewrite plottable_ints, Hc; reflexivity|].
  split; [unfold plot_pause, plt_plot; rewrite plottable_floats; reflexivity|].
  repeat split.
Qed.
End RunClaims.

(** ** The claims on the sample files *)

Section SampleRuns.
Import Sample.

Local Abbreviation parse_input := (parse_input datetime fromisoformat int_of_string).
Local Abbreviation parse_loop := (parse_loop datetime fromisoformat int_of_string).
Local Abbreviation run := (run datetime fromisoformat int_of_string).

Ltac by_evaluation := apply (bool_decide_unpack _); vm_compute; exact I.

Lemma C1_series_aligned_with_rows_witness :
  exists s : Series datetime,
    parse_input (start datetime good_files) = (inr s, start datetime good_files)
    /\ length (times s) = 3%nat
    /\ length (alloc s) = 3%nat
    /\ length (heap_alloc s) = 3%nat
    /\ length (goroutines s) = 3%nat
    /\ length (num_gc s) = 3%nat
    /\ length (pause_ns s) = 3%nat
    /\ series_at datetime s 1
       = row_values datetime fromisoformat int_of_string
           (dict_row header
              ["2025-11-02T10:00:01+08:00"; "3145728"; "2097152"; "14"; "4"; "2500000"]).
Proof.
  destruct (C1_series_aligned_with_rows datetime fromisoformat int_of_string
              good_files good_rows)
    as (s & Hs & L1 & L2 & L3 & L4 & L5 & L6 & Hi).
  - vm_compute. reflexivity.
  - by_evaluation.
  - exists s. repeat (split; [assumption|]).
    apply (Hi 1%nat). reflexivity.
Defined.



Lemma C3_bad_row_aborts_before_rendering_witness :
  exists (e : exn) (w : World datetime),
    run bad_files = (inl e, w)
    /\ is_conversion_error e = true
    /\ exit_status (run bad_files).1 <> 0
    /\ fs w = bad_files
    /\ stdout w = []
    /\ trace w = []
    /\ figs w = []
    /\ run (fs w) = (inl e, w).
Proof.
  apply (C3_bad_row_aborts_before_rendering datetime fromisoformat int_of_string
           bad_files bad_rows).
  - vm_compute. reflexivity.
  - by_evaluation.
Defined.

Lemma C4_bytes_to_mebibytes_witness :
  exists s : Series datetime,
    parse_loop (DictReader good_rows) (empty_series datetime) = inr s
    /\ alloc s !! 0%nat = Some lit_1_0
    /\ heap_alloc s !! 0%nat = Some lit_0_0.
Proof.
  destruct (C4_bytes_to_mebibytes datetime fromisoformat int_of_string
              (DictReader good_rows))
    as (s & Hs & Hi).
  - by_evaluation.
  - exists s. split; [exact Hs|].
    destruct (Hi 0%nat _ eq_refl) as (a & h & Ha & Hh & Ea & Eh & _).
    vm_compute in Ha. vm_compute in Hh.
    injection Ha as <-. injection Hh as <-.
    split; [exact Ea | exact Eh].
Defined.

Lemma C5_ns_to_ms_witness :
  exists s : Series datetime,
    parse_loop (DictReader good_rows) (empty_series datetime) = inr s
    /\ pause_ns s !! 0%nat = Some lit_1_0.
Proof.
  destruct (C5_ns_to_ms datetime fromisoformat int_of_string (DictReader good_rows))
    as (s & Hs & Hi).
  - by_evaluation.
  - exists s. split; [exact Hs|].
    destruct (Hi 0%nat _ eq_refl) as (p & Hp & Ep & _).
    vm_compute in Hp. injection Hp as <-. exact Ep.
Defined.




Lemma C8_only_six_columns_matter_witness :
  parse_loop (DictReader good_rows) (empty_series datetime)
  = parse_loop (DictReader wide_rows) (empty_series datetime)
  /\ (run good_files).1 = (run wide_files).1
  /\ stdout (run good_files).2 = stdout (run wide_files).2
  /\ trace (run good_files).2 = trace (run wide_files).2
  /\ forall s : Series datetime,
       (run good_files).1 = inr s ->
       forall p : string, p ∈ output_names ->
         is_Some (fs (run good_files).2 !! p)
         /\ fs (run good_files).2 !! p = fs (run wide_files).2 !! p.
Proof.
  apply (C8_only_six_columns_matter datetime fromisoformat int_of_string
           good_files wide_files good_rows wide_rows).
  - vm_compute. reflexivity.
  - vm_compute. reflexivity.
  - by_evaluation.
Defined.

Lemma C9_header_only_input_witness :
  exists (s : Series datetime) (w : World datetime),
    run header_only_files = (inr s, w)
    /\ exit_status (run header_only_files).1 = 0
    /\ times s = [] /\ alloc s = [] /\ heap_alloc s = []
    /\ goroutines s = [] /\ num_gc s = [] /\ pause_ns s = []
    /\ (forall p : string, p ∈ output_names ->
          exists f : Figure datetime, fs w !! p = Some (Image f))
    /\ resolve <$> saved_paths (trace w) = output_names
    /\ stdout w = ["wrote ./bench_alloc.png"; "wrote ./bench_goroutines.png";
                   "wrote ./bench_numgc.png"; "wrote ./bench_pause.png"].
Proof.
  apply (C9_header_only_input datetime fromisoformat int_of_string
           header_only_files header).
  vm_compute. reflexivity.
Defined.

Lemma C10_fixed_order_witness :
  exists (s : Series datetime) (w : World datetime),
    run good_files = (inr s, w)
    /\ saved_paths (trace w)
       = ["./bench_alloc.png"; "./bench_goroutines.png";
          "./bench_numgc.png"; "./bench_pause.png"]
    /\ stdout w = ["wrote ./bench_alloc.png"; "wrote ./bench_goroutines.png";
                   "wrote ./bench_numgc.png"; "wrote ./bench_pause.png"]
    /\ figs w = [].
Proof.
  eexists _, _. split; [vm_compute; reflexivity|].
  edestruct (C10_fixed_order datetime fromisoformat int_of_string good_files)
    as (Ht & Ho & Hf & _); [vm_compute; reflexivity|].
  rewrite Ht. repeat split; assumption.
Defined.
End SampleRuns.

(** * More properties of the script *)

(** ** Runs as a whole *)

Section RunFacts.
Variable datetime : Type.
Variable fromisoformat : string -> option datetime.
Variable int_of_string : string -> option Z.

Local Abbreviation parse_loop := (parse_loop datetime fromisoformat int_of_string).
Local Abbreviation loop_body := (loop_body datetime fromisoformat int_of_string).
Local Abbreviation row_values := (row_values datetime fromisoformat int_of_string).
Local Abbreviation well_formed := (well_formed datetime fromisoformat int_of_string).
Local Abbreviation run := (run datetime fromisoformat int_of_string).
Local Abbreviation files_t := (gmap string (content datetime)).

(** A record is well formed or has no values. *)
Lemma not_well_formed (r : record) : ~ well_formed r <-> row_values r = None.
Proof.
  unfold well_formed. destruct (row_values r) as [v|].
  - split; [intros H; destruct H; eauto | discriminate].
  - split; [reflexivity | intros _ [v Hv]; discriminate].
Qed.

(** The loop returns exactly on well-formed records; otherwise it
    raises one of the errors of a record. *)
Lemma parse_loop_cases (recs : list record) (s : Series datetime) :
  (Forall well_formed recs /\ exists s', parse_loop recs s = inr s')
  \/ (~ Forall well_formed recs
      /\ exists e, parse_loop recs s = inl e /\ is_conversion_error e = true).
Proof.
  destruct (decide (Forall well_formed recs)) as [HF|HN].
  - left. split; [exact HF|].
    destruct (well_formed_values _ fromisoformat int_of_string recs HF) as [vs Hvs].
    eexists. apply parse_loop_ok. exact Hvs.
  - right. split; [exact HN|].
    apply parse_loop_fail.
    apply not_Forall_Exists in HN; [|apply _].
    eapply Exists_impl; [exact HN|]. intros r. apply not_well_formed.
Qed.

(** The outcome of a run, by what the input path holds: the four
    charts; a failure of [plt.plot] on the second or on the third
    chart; a failure before the first chart; or a missing input. *)
Lemma run_cases (files : files_t) :
  (exists s rows,
     run files = (inr s, world_after datetime files s)
     /\ files !! CSV_PATH = Some (Text rows)
     /\ Forall well_formed (DictReader rows)
     /\ Forall (fun r => counts_plottable int_of_string r = true) (DictReader rows)
     /\ parse_loop (DictReader rows) (empty_series datetime) = inr s)
  \/ (exists s rows,
        files !! CSV_PATH = Some (Text rows)
        /\ Forall well_formed (DictReader rows)
        /\ ~ Forall (fun r => counts_plottable int_of_string r = true) (DictReader rows)
        /\ parse_loop (DictReader rows) (empty_series datetime) = inr s
        /\ ((ints_fit (goroutines s) = false
             /\ run files = (inl OverflowError, world_failed_goroutines datetime files s))
            \/ (ints_fit (goroutines s) = true /\ ints_fit (num_gc s) = false
                /\ run files = (inl OverflowError, world_failed_numgc datetime files s))))
  \/ (exists e, run files = (inl e, start datetime files)
                /\ exit_status (A:=Series datetime) (inl e) = 1
                /\ is_Some (files !! CSV_PATH)
                /\ forall rows, files !! CSV_PATH = Some (Text rows) ->
                                ~ Forall well_formed (DictReader rows))
  \/ (files !! CSV_PATH = None
      /\ run files
         = (inl (SystemExit 1),
            mkWorld files ["CSV not found: bench_sustained_metrics_round2.csv"] []
                    [EvPrint "CSV not found: bench_sustained_metrics_round2.csv"])).
Proof.
  destruct (files !! CSV_PATH) as [[rows|f]|] eqn:Hf.
  - destruct (decide (Forall well_formed (DictReader rows))) as [HF|HN].
    + destruct (run_well_formed _ fromisoformat int_of_string _ _ Hf HF)
        as (s & Hs & Hrun & Hfit).
      rewrite Hrun. unfold render_result.
      destruct (ints_fit (goroutines s)) eqn:Hg; [destruct (ints_fit (num_gc s)) eqn:Hc|].
      * left. exists s, rows.
        split; [reflexivity|]. split; [reflexivity|]. split; [exact HF|].
        split; [apply Hfit; reflexivity|exact Hs].
      * right. left. exists s, rows.
        split; [reflexivity|]. split; [exact HF|].
        split; [intros HC; apply Hfit in HC; discriminate|].
        split; [exact Hs|]. right. repeat split; assumption.
      * right. left. exists s, rows.
        split; [reflexivity|]. split; [exact HF|].
        split; [intros HC; apply Hfit in HC; discriminate|].
        split; [exact Hs|]. left. repeat split; assumption.
    + right. right. left.
      rewrite (run_text _ fromisoformat int_of_string _ _ Hf).
      destruct (parse_loop_cases (DictReader rows) (empty_series datetime))
        as [(HF & _)|(_ & e & He & Hc)]; [contradiction|].
      exists e. rewrite He. split; [reflexivity|].
      split; [destruct e; simpl in *; congruence|].
      split; [eauto|]. intros rows' Hr. inversion Hr; subst. exact HN.
  - right. right. left. exists UnicodeDecodeError.
    rewrite (run_image _ fromisoformat int_of_string _ _ Hf).
    repeat split; [eauto|]. intros rows Hr. discriminate.
  - right. right. right. split; [reflexivity|].
    apply (run_missing _ fromisoformat int_of_string _ Hf).
Qed.

(** X1. The styling of the allocation chart: the figure is 12 by 6, the
    first line is labelled "Alloc (MB)" and opaque, the second is
    labelled "HeapAlloc (MB)" and drawn with alpha 0.8, and
    [tight_layout] was applied before saving. *)
Theorem alloc_chart_style (files : files_t) (s : Series datetime) (w : World datetime) :
  run files = (inr s, w) ->
  exists (f : Figure datetime) (l1 l2 : Line datetime),
    fs w !! "bench_alloc.png" = Some (Image f)
    /\ figsize f = Some (12, 6)
    /\ lines f = [l1; l2]
    /\ label l1 = "Alloc (MB)" /\ alpha l1 = None
    /\ label l2 = "HeapAlloc (MB)" /\ alpha l2 = Some lit_0_8
    /\ tight f = true.
Proof.
  intros Hrun. rewrite (run_inr_inv _ _ _ _ _ _ Hrun).
  destruct (files_after_lookup datetime files s) as (F1 & _).
  eexists _, _, _. split; [exact F1|]. repeat split.
Qed.

(** X2. The three other charts: each is 12 by 4 and has one line against
    the times list (the goroutine counts, the GC counts, the pause
    milliseconds), the x label "Time", its own y label and title, the
    tight layout, and no legend, although every line has a label. *)
Theorem single_line_charts (files : files_t) (s : Series datetime) (w : World datetime) :
  run files = (inr s, w) ->
  fs w !! "bench_goroutines.png"
  = Some (Image (mkFigure (Some (12, 4))
                   [mkLine (times s) (IntV <$> goroutines s) "Goroutines" None]
                   "Time" "Count" "Goroutines over time" false true))
  /\ fs w !! "bench_numgc.png"
     = Some (Image (mkFigure (Some (12, 4))
                      [mkLine (times s) (IntV <$> num_gc s) "NumGC" None]
                      "Time" "Count" "NumGC over time" false true))
  /\ fs w !! "bench_pause.png"
     = Some (Image (mkFigure (Some (12, 4))
                      [mkLine (times s) (FloatV <$> pause_ns s) "PauseTotal (ms)" None]
                      "Time" "ms" "GC PauseTotal over time" false true)).
Proof.
  intros Hrun. rewrite (run_inr_inv _ _ _ _ _ _ Hrun).
  destruct (files_after_lookup datetime files s) as (_ & F2 & F3 & F4 & _).
  repeat split; assumption.
Qed.



(** X5. No run touches a file other than the four images: the input file
    and every other file of the directory are as before, however the
    run ends. *)
Theorem other_files_untouched (files : files_t) (p : string) :
  p ∉ output_names ->
  fs (run files).2 !! p = files !! p.
Proof.
  intros Hp.
  assert (p <> "bench_alloc.png" /\ p <> "bench_goroutines.png") as [N1 N2].
  { split; intros ->; apply Hp; unfold output_names;
      rewrite !elem_of_cons; tauto. }
  destruct (run_cases files)
    as [(s & rows & Hrun & _)
       |[(s & rows & _ & _ & _ & _ & [(_ & Hrun)|(_ & _ & Hrun)])
        |[(e' & Hrun & _)|(Hf & Hrun)]]];
    rewrite Hrun; simpl; try reflexivity.
  - destruct (files_after_lookup datetime files s) as (_ & _ & _ & _ & Fo).
    apply Fo. exact Hp.
  - apply lookup_insert_ne. congruence.
  - rewrite !lookup_insert_ne by congruence. reflexivity.
Qed.

(** Saving the four charts twice is saving them once. *)
Lemma files_after_twice (files : files_t) (s : Series datetime) :
  files_after datetime (files_after datetime files s) s = files_after datetime files s.
Proof.
  destruct (files_after_lookup datetime files s) as (F1 & F2 & F3 & F4 & _).
  unfold files_after at 1.
  rewrite (insert_id _ _ _ F1), (insert_id _ _ _ F2), (insert_id _ _ _ F3).
  apply insert_id. exact F4.
Qed.

(** X6. Running the script again on the files a successful run left gives
    the same six lists and ends in the same state: the same four
    images and the same four lines, nothing piles up. *)
Theorem rerun_same_result (files : files_t) (s : Series datetime) (w : World datetime) :
  run files = (inr s, w) ->
  run (fs w) = (inr s, w).
Proof.
  intros Hr.
  destruct (run_cases files)
    as [(s' & rows & Hrun & Hf & HF & HC & Hs)
       |[(s' & rows & _ & _ & _ & _ & [(_ & Hrun)|(_ & _ & Hrun)])
        |[(e' & Hrun & _)|(Hf & Hrun)]]];
    rewrite Hrun in Hr; simplify_eq.
  simpl fs.
  assert (files_after datetime files s !! CSV_PATH = Some (Text rows)) as Hf'.
  { destruct (files_after_lookup datetime files s) as (_ & _ & _ & _ & Fo).
    rewrite Fo; [exact Hf|]. unfold output_names, CSV_PATH.
    rewrite !elem_of_cons, elem_of_nil. intros [?|[?|[?|[?|[]]]]]; discriminate. }
  destruct (run_plottable _ fromisoformat int_of_string _ _ Hf' HF HC)
    as (s2 & Hs2 & Hrun2).
  rewrite Hs in Hs2. simplify_eq. rewrite Hrun2.
  unfold world_after. rewrite files_after_twice. reflexivity.
Qed.
End RunFacts.

(** ** Records that do not parse *)

Section RecordFacts.
Variable datetime : Type.
Variable fromisoformat : string -> option datetime.
Variable int_of_string : string -> option Z.

Local Abbreviation parse_loop := (parse_loop datetime fromisoformat int_of_string).
Local Abbreviation loop_body := (loop_body datetime fromisoformat int_of_string).
Local Abbreviation row_values := (row_values datetime fromisoformat int_of_string).
Local Abbreviation well_formed := (well_formed datetime fromisoformat int_of_string).
Local Abbreviation time_field := (time_field datetime fromisoformat).
Local Abbreviation int_field := (int_field int_of_string).
Local Abbreviation run := (run datetime fromisoformat int_of_string).
Local Abbreviation files_t := (gmap string (content datetime)).

#[local] Arguments SFmul : simpl never.
#[local] Arguments truediv : simpl never.
#[local] Arguments getitem : simpl never.
#[local] Arguments py_int : simpl never.
#[local] Arguments in_float_range : simpl never.

(** The loop over two lists of records, one after the other. *)
Lemma parse_loop_app (recs1 recs2 : list record) (s : Series datetime) :
  parse_loop (recs1 ++ recs2) s = (s' ← parse_loop recs1 s; parse_loop recs2 s').
Proof.
  revert s. induction recs1 as [|r recs1 IH]; intros s; simpl.
  - reflexivity.
  - destruct (loop_body s r) as [e|s']; simpl; [reflexivity|apply IH].
Qed.

(** X7. The first record that does not parse ends the loop: the exception
    is the one this record raises after the well-formed records before
    it, and the records after it are never looked at. *)
Theorem first_bad_record_decides (good : list record) (r : record) :
  Forall well_formed good ->
  ~ well_formed r ->
  exists e : exn,
    is_conversion_error e = true
    /\ forall rest : list record,
         parse_loop (good ++ r :: rest) (empty_series datetime) = inl e.
Proof.
  intros HF HN.
  destruct (well_formed_values _ fromisoformat int_of_string good HF) as [vs Hvs].
  pose proof (parse_loop_ok _ fromisoformat int_of_string good vs
                (empty_series datetime) Hvs) as Hgood.
  pose proof (loop_body_spec _ fromisoformat int_of_string
                (foldl (push datetime) (empty_series datetime) vs) r) as Hb.
  apply not_well_formed in HN. rewrite HN in Hb.
  destruct Hb as (e & He & Hc).
  exists e. split; [exact Hc|].
  intros rest. rewrite parse_loop_app, Hgood. simpl. rewrite He. reflexivity.
Qed.

(** The timestamp is read first, so a record whose [time] column is
    missing raises [KeyError('time')], one whose [time] is [None] (a
    short row) raises [TypeError] and one whose [time] text is
    rejected by [fromisoformat] raises [ValueError], whatever its
    other columns hold. *)
Lemma bad_time_exception (s : Series datetime) (r : record) :
  time_field r = None ->
  loop_body s r
  = inl (match r !! Some "time" with
         | None => KeyError "time"
         | Some (Str _) => ValueError
         | Some _ => TypeError
         end).
Proof.
  intros Ht. unfold loop_body.
  rewrite read_time, Ht. reflexivity.
Qed.

(** X8. Only the three columns that become floats are limited in size: on
    a record whose timestamp and five integers parse, the loop body
    appends the six values when [alloc], [heap_alloc] and
    [pause_total_ns] are in the range of a float and raises
    [OverflowError] otherwise; [num_goroutine] and [num_gc] are kept
    as integers of any size. *)
Theorem overflow_only_from_float_columns (s : Series datetime) (r : record)
    (t : datetime) (a h g c p : Z) :
  time_field r = Some t ->
  int_field r "alloc" = Some a ->
  int_field r "heap_alloc" = Some h ->
  int_field r "num_goroutine" = Some g ->
  int_field r "num_gc" = Some c ->
  int_field r "pause_total_ns" = Some p ->
  loop_body s r
  = if in_float_range a && in_float_range h && in_float_range p
    then inr (mkSeries (times s ++ [t])
                (alloc s ++ [bytes_to_mebibytes a])
                (heap_alloc s ++ [bytes_to_mebibytes h])
                (goroutines s ++ [g]) (num_gc s ++ [c])
                (pause_ns s ++ [ns_to_ms p]))
    else inl OverflowError.
Proof.
  intros Ht Ha Hh Hg Hc Hp. unfold loop_body.
  rewrite read_time, Ht.
  rewrite read_int, Ha, read_MB.
  destruct (in_float_range a); [|reflexivity].
  rewrite read_int, Hh, read_MB.
  destruct (in_float_range h); [|reflexivity].
  rewrite read_int, Hg, read_int, Hc, read_int, Hp, read_ms.
  destruct (in_float_range p); reflexivity.
Qed.
End RecordFacts.

(** ** The records of csv.DictReader *)

Lemma elem_of_drop_lookup {A : Type} (x : A) (n : nat) (l : list A) :
  x ∈ drop n l <-> exists i : nat, l !! i = Some x /\ (n <= i)%nat.
Proof.
  rewrite list_elem_of_lookup. split.
  - intros [j Hj]. rewrite lookup_drop in Hj. exists (n + j)%nat. split; [exact Hj|lia].
  - intros (i & Hi & Hle). exists (i - n)%nat. rewrite lookup_drop.
    replace (n + (i - n))%nat with i by lia. exact Hi.
Qed.

(** Filling a record from pairs: a name that is not among the pairs
    keeps what it had. *)
Lemma foldl_insert_other (l : list (string * string)) (d : gmap (option string) cell)
    (k : option string) :
  (forall kv, kv ∈ l -> Some kv.1 <> k) ->
  foldl (fun d kv => <[Some kv.1 := Str kv.2]> d) d l !! k = d !! k.
Proof.
  revert d. induction l as [|kv l IH]; intros d Hk; simpl.
  - reflexivity.
  - rewrite IH.
    + apply lookup_insert_ne. apply Hk. left.
    + intros kv' Hin. apply Hk. right. exact Hin.
Qed.

Lemma dict_zip_absent (h row : list string) (k : string) :
  k ∉ h -> dict_zip h row !! Some k = None.
Proof.
  intros Hk. unfold dict_zip. rewrite foldl_insert_other; [apply lookup_empty|].
  intros [k' v'] Hin Heq. simpl in Heq. injection Heq as ->.
  apply Hk. eapply elem_of_zip_l. exact Hin.
Qed.

Lemma dict_zip_restkey (h row : list string) : dict_zip h row !! None = None.
Proof.
  unfold dict_zip. rewrite foldl_insert_other; [apply lookup_empty|].
  intros kv _. discriminate.
Qed.

(** With distinct names, a name holds the field at its position. *)
Lemma foldl_insert_position (h : list string) :
  NoDup h ->
  forall (row : list string) (d : gmap (option string) cell) (i : nat) (k : string),
    h !! i = Some k ->
    foldl (fun d kv => <[Some kv.1 := Str kv.2]> d) d (zip h row) !! Some k
    = match row !! i with
      | Some v => Some (Str v)
      | None => d !! Some k
      end.
Proof.
  induction 1 as [|k0 h Hk0 Hnd IH]; intros row d i k Hi.
  - destruct i; discriminate.
  - destruct row as [|v0 row]; [destruct i; reflexivity|].
    simpl zip_with. simpl foldl. destruct i as [|i]; simpl in Hi |- *.
    + injection Hi as ->.
      rewrite foldl_insert_other; [apply lookup_insert_eq|].
      intros [k' v'] Hin Heq. simpl in Heq. injection Heq as ->.
      apply Hk0. eapply elem_of_zip_l. exact Hin.
    + rewrite (IH row _ i k Hi).
      destruct (row !! i); [reflexivity|].
      apply lookup_insert_ne. intros Heq. injection Heq as ->.
      apply Hk0. eapply list_elem_of_lookup_2. exact Hi.
Qed.

Lemma pad_restval_other (names : list string) (d : gmap (option string) cell)
    (k : option string) :
  (forall n, n ∈ names -> Some n <> k) ->
  pad_restval d names !! k = d !! k.
Proof.
  unfold pad_restval. revert d. induction names as [|n names IH]; intros d Hk; simpl.
  - reflexivity.
  - rewrite IH.
    + apply lookup_insert_ne. apply Hk. left.
    + intros n' Hin. apply Hk. right. exact Hin.
Qed.

Lemma pad_restval_member (names : list string) (d : gmap (option string) cell)
    (k : string) :
  k ∈ names -> pad_restval d names !! Some k = Some NoneVal.
Proof.
  unfold pad_restval. revert d. induction names as [|n names IH]; intros d Hk; simpl.
  - inversion Hk.
  - destruct (decide (k ∈ names)) as [Hin|Hnin].
    + apply IH. exact Hin.
    + apply elem_of_cons in Hk. destruct Hk as [->|Hk]; [|contradiction].
      change (pad_restval (<[Some n:=NoneVal]> d) names !! Some n = Some NoneVal).
      rewrite pad_restval_other; [apply lookup_insert_eq|].
      intros n' Hin Heq. injection Heq as ->. contradiction.
Qed.

(** A name that is not in the header is not in the record. *)
Lemma dict_row_absent (h row : list string) (k : string) :
  k ∉ h -> dict_row h row !! Some k = None.
Proof.
  intros Hk. unfold dict_row.
  destruct (length h <? length row)%nat.
  - rewrite lookup_insert_ne by discriminate. apply dict_zip_absent. exact Hk.
  - destruct (length row <? length h)%nat; [|apply dict_zip_absent; exact Hk].
    rewrite pad_restval_other; [apply dict_zip_absent; exact Hk|].
    intros n Hin Heq. injection Heq as ->.
    apply Hk. apply elem_of_drop_lookup in Hin. destruct Hin as (i & Hi & _).
    eapply list_elem_of_lookup_2. exact Hi.
Qed.

(** With distinct names, the name at position [i] of the header holds
    the field at position [i] of the row, [None] when the row is too
    short. *)
Lemma dict_row_position (h row : list string) (i : nat) (k : string) :
  NoDup h ->
  h !! i = Some k ->
  dict_row h row !! Some k
  = Some (match row !! i with
          | Some v => Str v
          | None => NoneVal
          end).
Proof.
  intros Hnd Hi. unfold dict_row, dict_zip.
  pose proof (lookup_lt_Some _ _ _ Hi) as Hlt.
  destruct (length h <? length row)%nat eqn:E1.
  - apply Nat.ltb_lt in E1.
    rewrite lookup_insert_ne by discriminate.
    rewrite (foldl_insert_position h Hnd row ∅ i k Hi).
    destruct (lookup_lt_is_Some_2 row i) as [v ->]; [lia|reflexivity].
  - apply Nat.ltb_ge in E1.
    destruct (length row <? length h)%nat eqn:E2.
    + apply Nat.ltb_lt in E2.
      destruct (row !! i) as [v|] eqn:Hv.
      * rewrite pad_restval_other.
        { rewrite (foldl_insert_position h Hnd row ∅ i k Hi), Hv. reflexivity. }
        intros n Hin Heq. injection Heq as ->.
        apply elem_of_drop_lookup in Hin. destruct Hin as (j & Hj & Hle).
        pose proof (NoDup_lookup _ _ _ _ Hnd Hi Hj) as ->.
        apply lookup_lt_Some in Hv. lia.
      * apply pad_restval_member. apply elem_of_drop_lookup.
        exists i. split; [exact Hi|]. apply lookup_ge_None in Hv. exact Hv.
    + apply Nat.ltb_ge in E2.
      rewrite (foldl_insert_position h Hnd row ∅ i k Hi).
      destruct (lookup_lt_is_Some_2 row i) as [v ->]; [lia|reflexivity].
Qed.

(** The surplus fields of a long row are kept under the key [None]. *)
Lemma dict_row_restkey (h row : list string) :
  dict_row h row !! None
  = if (length h <? length row)%nat then Some (Rest (drop (length h) row)) else None.
Proof.
  unfold dict_row.
  destruct (length h <? length row)%nat.
  - apply lookup_insert_eq.
  - destruct (length row <? length h)%nat; [|apply dict_zip_restkey].
    rewrite pad_restval_other; [apply dict_zip_restkey|].
    intros n _. discriminate.
Qed.

Section ReaderFacts.
Variable datetime : Type.
Variable fromisoformat : string -> option datetime.
Variable int_of_string : string -> option Z.

Local Abbreviation parse_loop := (parse_loop datetime fromisoformat int_of_string).
Local Abbreviation loop_body := (loop_body datetime fromisoformat int_of_string).
Local Abbreviation row_values := (row_values datetime fromisoformat int_of_string).
Local Abbreviation well_formed := (well_formed datetime fromisoformat int_of_string).
Local Abbreviation time_field := (time_field datetime fromisoformat).
Local Abbreviation int_field := (int_field int_of_string).
Local Abbreviation run := (run datetime fromisoformat int_of_string).
Local Abbreviation files_t := (gmap string (content datetime)).

(** Two text inputs on which the loop gives the same result give the
    same run. *)
Lemma same_loop_same_outcome (files1 files2 : files_t) (rows1 rows2 : list (list string)) :
  files1 !! CSV_PATH = Some (Text rows1) ->
  files2 !! CSV_PATH = Some (Text rows2) ->
  parse_loop (DictReader rows1) (empty_series datetime)
  = parse_loop (DictReader rows2) (empty_series datetime) ->
  same_outcome (run files1) (run files2).
Proof.
  intros Hf1 Hf2 HP. unfold same_outcome.
  rewrite (run_text _ fromisoformat int_of_string _ _ Hf1).
  rewrite (run_text _ fromisoformat int_of_string _ _ Hf2).
  rewrite HP.
  destruct (parse_loop (DictReader rows2) (empty_series datetime)) as [e|s]; simpl.
  - repeat split; discriminate.
  - unfold render_result.
    destruct (ints_fit (goroutines s)); [destruct (ints_fit (num_gc s))|]; simpl;
      [|repeat split; discriminate ..].
    repeat (split; [reflexivity|]).
    intros s' _ p Hp.
    destruct (files_after_lookup datetime files1 s) as (A1 & A2 & A3 & A4 & _).
    destruct (files_after_lookup datetime files2 s) as (B1 & B2 & B3 & B4 & _).
    unfold output_names in Hp.
    repeat (apply elem_of_cons in Hp; destruct Hp as [->|Hp]; [congruence|]).
    inversion Hp.
Qed.

(** A record in which one of the six columns holds no text has no
    values. *)
Lemma unreadable_column (r : record) (k : string) :
  k ∈ columns ->
  (forall s : string, r !! Some k <> Some (Str s)) ->
  row_values r = None.
Proof.
  intros Hk Hr. unfold columns in Hk.
  apply elem_of_cons in Hk. destruct Hk as [->|Hk].
  - unfold row_values, time_field.
    destruct (r !! Some "time") as [[s| |l]|]; try reflexivity.
    destruct (Hr s). reflexivity.
  - apply bad_numeric_no_values. unfold bad_numeric.
    apply Exists_exists. exists k. split; [exact Hk|].
    unfold int_field.
    destruct (r !! Some k) as [[s| |l]|]; try reflexivity.
    destruct (Hr s). reflexivity.
Qed.

(** The records of a file, one for each row that is not blank. *)
Lemma DictReader_member (header row : list string) (rows : list (list string)) :
  row ∈ rows -> row <> [] -> dict_row header row ∈ DictReader (header :: rows).
Proof.
  intros Hin Hne. unfold DictReader.
  apply list_elem_of_fmap. exists row. split; [reflexivity|].
  apply list_elem_of_filter. split; [|exact Hin].
  destruct row; [congruence|exact I].
Qed.

(** A run on a text input one record of which has no values. *)
Lemma run_bad_record (files : files_t) (rows : list (list string)) (r : record) :
  files !! CSV_PATH = Some (Text rows) ->
  r ∈ DictReader rows ->
  row_values r = None ->
  exists e : exn,
    run files = (inl e, start datetime files) /\ is_conversion_error e = true.
Proof.
  intros Hf Hin Hr.
  destruct (parse_loop_fail _ fromisoformat int_of_string (DictReader rows)
              (empty_series datetime)) as (e & He & Hc).
  { apply Exists_exists. exists r. split; assumption. }
  exists e. rewrite (run_text _ fromisoformat int_of_string _ _ Hf), He.
  split; [reflexivity|exact Hc].
Qed.

(** X9. How [csv.DictReader] fills a record, as the script sees it through
    [row[key]]: with distinct column names, the name at position [i]
    of the header gives the field at position [i] of the row, or
    [None] when the row is too short; a name that is not in the header
    raises [KeyError]; and the fields beyond the header are kept apart
    under the key [None], out of reach of any column name. *)
Theorem record_fields_by_position (header row : list string) :
  NoDup header ->
  (forall (i : nat) (k : string),
     header !! i = Some k ->
     getitem (dict_row header row) k
     = inr (match row !! i with
            | Some v => Str v
            | None => NoneVal
            end))
  /\ (forall k : string, k ∉ header -> getitem (dict_row header row) k = inl (KeyError k))
  /\ dict_row header row !! None
     = if (length header <? length row)%nat
       then Some (Rest (drop (length header) row))
       else None.
Proof.
  intros Hnd. split; [|split].
  - intros i k Hi. unfold getitem.
    rewrite (dict_row_position _ _ _ _ Hnd Hi). reflexivity.
  - intros k Hk. unfold getitem. rewrite (dict_row_absent _ _ _ Hk). reflexivity.
  - apply dict_row_restkey.
Qed.

(** X10. A header that lacks one of the six columns is only noticed at the
    first data row: with at least one row that is not blank, the run
    ends with an exception before any chart is drawn and no file is
    changed; when the missing column is [time], the exception is
    [KeyError('time')]. *)
Theorem missing_column_aborts (files : files_t) (header : list string)
    (rows : list (list string)) (k : string) :
  files !! CSV_PATH = Some (Text (header :: rows)) ->
  k ∈ columns ->
  k ∉ header ->
  Exists (fun row => row <> []) rows ->
  exists e : exn,
    run files = (inl e, start datetime files)
    /\ is_conversion_error e = true
    /\ (k = "time" -> e = KeyError "time").
Proof.
  intros Hf Hk Hh HE.
  rewrite (run_text _ fromisoformat int_of_string _ _ Hf).
  unfold DictReader.
  destruct (filter (fun r => negb (is_blank r)) rows) as [|row0 rest] eqn:Hfil.
  { exfalso. apply Exists_exists in HE. destruct HE as (row & Hin & Hne).
    assert (row ∈ filter (fun r => negb (is_blank r)) rows) as Hrow.
    { apply list_elem_of_filter. split; [|exact Hin]. destruct row; [congruence|exact I]. }
    rewrite Hfil in Hrow. inversion Hrow. }
  assert (row_values (dict_row header row0) = None) as Hnone.
  { apply (unreadable_column _ k Hk). intros s.
    rewrite (dict_row_absent _ _ _ Hh). discriminate. }
  simpl.
  pose proof (loop_body_spec _ fromisoformat int_of_string (empty_series datetime)
                (dict_row header row0)) as Hb.
  rewrite Hnone in Hb. destruct Hb as (e & He & Hc).
  exists e. rewrite He. simpl. split; [reflexivity|]. split; [exact Hc|].
  intros ->.
  rewrite bad_time_exception in He.
  - rewrite (dict_row_absent _ _ _ Hh) in He. congruence.
  - unfold time_field. rewrite (dict_row_absent _ _ _ Hh). reflexivity.
Qed.

(** X11. A data row that stops before one of the six columns, the names of
    the header being distinct, makes the run end with an exception
    before any chart is drawn; no file is changed. *)
Theorem short_row_aborts (files : files_t) (header row : list string)
    (rows : list (list string)) (i : nat) (k : string) :
  files !! CSV_PATH = Some (Text (header :: rows)) ->
  NoDup header ->
  header !! i = Some k ->
  k ∈ columns ->
  row ∈ rows ->
  row <> [] ->
  (length row <= i)%nat ->
  getitem (dict_row header row) k = inr NoneVal
  /\ exists e : exn,
       run files = (inl e, start datetime files) /\ is_conversion_error e = true.
Proof.
  intros Hf Hnd Hi Hk Hin Hne Hlen.
  assert (dict_row header row !! Some k = Some NoneVal) as Hv.
  { rewrite (dict_row_position _ _ _ _ Hnd Hi).
    rewrite (proj2 (lookup_ge_None row i) Hlen). reflexivity. }
  split; [unfold getitem; rewrite Hv; reflexivity|].
  apply (run_bad_record _ _ (dict_row header row) Hf).
  - apply DictReader_member; assumption.
  - apply (unreadable_column _ k Hk). intros s. rewrite Hv. discriminate.
Qed.

(** Cutting a row at the length of the header changes no named column. *)
Lemma dict_row_take (h row : list string) (k : string) :
  dict_row h (take (length h) row) !! Some k = dict_row h row !! Some k.
Proof.
  destruct (Nat.le_gt_cases (length row) (length h)) as [Hle|Hgt].
  - rewrite take_ge by exact Hle. reflexivity.
  - unfold dict_row at 1 2. rewrite length_take.
    replace (length h `min` length row)%nat with (length h) by lia.
    rewrite Nat.ltb_irrefl.
    replace (length h <? length row)%nat with true by (symmetry; apply Nat.ltb_lt; lia).
    rewrite lookup_insert_ne by discriminate.
    unfold dict_zip. rewrite zip_with_take_r. reflexivity.
Qed.

Lemma DictReader_take_agree (header : list string) (rows : list (list string)) :
  header <> [] ->
  Forall2 agree (DictReader (header :: rows))
                (DictReader (header :: (take (length header) <$> rows))).
Proof.
  intros Hh. unfold DictReader.
  induction rows as [|row rows IH]; simpl; [constructor|].
  rewrite !filter_cons.
  assert (is_blank (take (length header) row) = is_blank row) as Hb.
  { destruct header; [congruence|]. destruct row; reflexivity. }
  rewrite Hb. destruct (decide (negb (is_blank row))) as [Hn|Hn]; [|exact IH].
  simpl. constructor; [|exact IH].
  unfold agree. apply Forall_forall. intros k _. symmetry. apply dict_row_take.
Qed.

(** X12. Fields beyond the last column of the header are ignored: cutting
    every data row at the length of a header that is not blank gives
    the same run. *)
Theorem surplus_fields_ignored (files1 files2 : files_t) (header : list string)
    (rows : list (list string)) :
  header <> [] ->
  files1 !! CSV_PATH = Some (Text (header :: rows)) ->
  files2 !! CSV_PATH = Some (Text (header :: (take (length header) <$> rows))) ->
  same_outcome (run files1) (run files2).
Proof.
  intros Hh Hf1 Hf2.
  apply (same_loop_same_outcome _ _ _ _ Hf1 Hf2).
  apply parse_loop_agree. apply DictReader_take_agree. exact Hh.
Qed.

(** A full row under a header of distinct names and the same fields
    under the same names in another order make the same record. *)
Lemma dict_row_permuted (h1 h2 r1 r2 : list string) :
  NoDup h1 ->
  length r1 = length h1 ->
  length r2 = length h2 ->
  zip h1 r1 ≡ₚ zip h2 r2 ->
  dict_row h1 r1 = dict_row h2 r2.
Proof.
  intros Hnd L1 L2 HP.
  assert (h1 ≡ₚ h2) as Hh.
  { rewrite <- (fst_zip h1 r1), <- (fst_zip h2 r2) by lia. rewrite HP. reflexivity. }
  assert (NoDup h2) as Hnd2 by (rewrite <- Hh; exact Hnd).
  apply map_eq. intros [k|].
  - destruct (decide (k ∈ h1)) as [Hin|Hnin].
    + apply list_elem_of_lookup_1 in Hin. destruct Hin as [i Hi].
      destruct (lookup_lt_is_Some_2 r1 i) as [v Hv];
        [rewrite L1; eapply lookup_lt_Some; exact Hi|].
      rewrite (dict_row_position _ _ _ _ Hnd Hi), Hv.
      assert ((k, v) ∈ zip h2 r2) as Hkv.
      { rewrite <- HP. eapply list_elem_of_lookup_2.
        apply lookup_zip_Some. split; eassumption. }
      apply list_elem_of_lookup_1 in Hkv. destruct Hkv as [j Hj].
      apply lookup_zip_Some in Hj. destruct Hj as [Hj1 Hj2].
      rewrite (dict_row_position _ _ _ _ Hnd2 Hj1), Hj2. reflexivity.
    + rewrite (dict_row_absent _ _ _ Hnin).
      rewrite dict_row_absent; [reflexivity|].
      rewrite <- Hh. exact Hnin.
  - rewrite !dict_row_restkey, L1, L2, !Nat.ltb_irrefl. reflexivity.
Qed.

(** X13. The columns are found by name, so their order in the file does not
    matter: two files with full rows, the names of the header being
    distinct, that hold the same fields under the same names row by
    row, in whatever column order, give the same records and the same
    run. *)
Theorem column_order_irrelevant (files1 files2 : files_t) (h1 h2 : list string)
    (rows1 rows2 : list (list string)) :
  files1 !! CSV_PATH = Some (Text (h1 :: rows1)) ->
  files2 !! CSV_PATH = Some (Text (h2 :: rows2)) ->
  NoDup h1 ->
  Forall2 (fun r1 r2 =>
             length r1 = length h1 /\ length r2 = length h2
             /\ zip h1 r1 ≡ₚ zip h2 r2) rows1 rows2 ->
  DictReader (h1 :: rows1) = DictReader (h2 :: rows2)
  /\ same_outcome (run files1) (run files2).
Proof.
  intros Hf1 Hf2 Hnd HF.
  assert (DictReader (h1 :: rows1) = DictReader (h2 :: rows2)) as HD.
  { unfold DictReader. clear Hf1 Hf2.
    induction HF as [|r1 r2 rows1 rows2 (L1 & L2 & HP) _ IH]; [reflexivity|].
    rewrite !filter_cons.
    assert (is_blank r1 = is_blank r2) as Hb.
    { pose proof (Permutation_length HP) as HL.
      rewrite !length_zip in HL.
      destruct r1, r2; simpl in *; try reflexivity; lia. }
    rewrite Hb. destruct (decide (negb (is_blank r2))) as [Hn|Hn]; [|exact IH].
    simpl. rewrite IH. f_equal. apply dict_row_permuted; assumption. }
  split; [exact HD|].
  apply (same_loop_same_outcome _ _ _ _ Hf1 Hf2). rewrite HD. reflexivity.
Qed.
End ReaderFacts.

(** ** The further properties on the sample files *)

Section MoreSampleRuns.
Import Sample.

Local Abbreviation parse_loop := (parse_loop datetime fromisoformat int_of_string).
Local Abbreviation loop_body := (loop_body datetime fromisoformat int_of_string).
Local Abbreviation run := (run datetime fromisoformat int_of_string).

Ltac evaluate := apply (bool_decide_unpack _); vm_compute; exact I.

Lemma alloc_chart_style_witness :
  exists (s : Series datetime) (w : World datetime)
         (f : Figure datetime) (l1 l2 : Line datetime),
    run good_files = (inr s, w)
    /\ fs w !! "bench_alloc.png" = Some (Image f)
    /\ figsize f = Some (12, 6)
    /\ lines f = [l1; l2]
    /\ label l1 = "Alloc (MB)" /\ alpha l1 = None
    /\ label l2 = "HeapAlloc (MB)" /\ alpha l2 = Some lit_0_8
    /\ tight f = true.
Proof.
  eexists _, _.
  edestruct (alloc_chart_style datetime fromisoformat int_of_string good_files)
    as (f & l1 & l2 & H); [vm_compute; reflexivity|].
  exists f, l1, l2. split; [vm_compute; reflexivity|exact H].
Defined.

Lemma single_line_charts_witness :
  exists (s : Series datetime) (w : World datetime),
    run good_files = (inr s, w)
    /\ goroutines s = [12; 14; 9]
    /\ fs w !! "bench_goroutines.png"
       = Some (Image (mkFigure (Some (12, 4))
                        [mkLine (times s) (IntV <$> goroutines s) "Goroutines" None]
                        "Time" "Count" "Goroutines over time" false true))
    /\ fs w !! "bench_numgc.png"
       = Some (Image (mkFigure (Some (12, 4))
                        [mkLine (times s) (IntV <$> num_gc s) "NumGC" None]
                        "Time" "Count" "NumGC over time" false true))
    /\ fs w !! "bench_pause.png"
       = Some (Image (mkFigure (Some (12, 4))
                        [mkLine (times s) (FloatV <$> pause_ns s) "PauseTotal (ms)" None]
                        "Time" "ms" "GC PauseTotal over time" false true)).
Proof.
  eexists _, _. split; [vm_compute; reflexivity|]. split; [reflexivity|].
  apply (single_line_charts datetime fromisoformat int_of_string good_files).
  vm_compute. reflexivity.
Defined.



Lemma other_files_untouched_witness :
  fs (run good_files).2 !! CSV_PATH = good_files !! CSV_PATH.
Proof.
  apply (other_files_untouched datetime fromisoformat int_of_string good_files CSV_PATH).
  evaluate.
Defined.

Lemma rerun_same_result_witness :
  exists (s : Series datetime) (w : World datetime),
    run good_files = (inr s, w) /\ run (fs w) = (inr s, w).
Proof.
  eexists _, _. split; [vm_compute; reflexivity|].
  apply (rerun_same_result datetime fromisoformat int_of_string good_files).
  vm_compute. reflexivity.
Defined.

Lemma first_bad_record_decides_witness :
  exists e : exn,
    is_conversion_error e = true
    /\ forall rest : list record,
         parse_loop (take 1 (DictReader bad_rows)
                     ++ dict_row header
                          ["2025-11-02T10:00:01+08:00"; "abc"; "2097152"; "14"; "4"; "2500000"]
                        :: rest)
           (empty_series datetime) = inl e.
Proof.
  apply (first_bad_record_decides datetime fromisoformat int_of_string).
  - evaluate.
  - evaluate.
Defined.

Lemma overflow_only_from_float_columns_witness :
  loop_body (empty_series datetime) (dict_row header huge_alloc_row) = inl OverflowError
  /\ exists s : Series datetime,
       loop_body (empty_series datetime) (dict_row header huge_count_row) = inr s
       /\ goroutines s = [10 ^ 400].
Proof.
  split.
  - erewrite (overflow_only_from_float_columns datetime fromisoformat int_of_string);
      [|vm_compute; reflexivity ..].
    vm_compute. reflexivity.
  - eexists.
    erewrite (overflow_only_from_float_columns datetime fromisoformat int_of_string);
      [|vm_compute; reflexivity ..].
    split; vm_compute; reflexivity.
Defined.

Lemma record_fields_by_position_witness :
  getitem (dict_row header ["2025-11-02T10:00:01+08:00"; "3145728"; "2097152"; "14"])
    "num_goroutine" = inr (Str "14")
  /\ getitem (dict_row header ["2025-11-02T10:00:01+08:00"; "3145728"; "2097152"; "14"])
       "num_gc" = inr NoneVal
  /\ getitem (dict_row header ["2025-11-02T10:00:01+08:00"; "3145728"; "2097152"; "14"])
       "sys" = inl (KeyError "sys").
Proof.
  destruct (record_fields_by_position header
              ["2025-11-02T10:00:01+08:00"; "3145728"; "2097152"; "14"])
    as (Hpos & Habs & _); [evaluate|].
  split; [apply (Hpos 3%nat); reflexivity|].
  split; [apply (Hpos 4%nat); reflexivity|].
  apply Habs. evaluate.
Defined.

Lemma missing_column_aborts_witness :
  exists e : exn,
    run (with_input no_time_rows) = (inl e, start datetime (with_input no_time_rows))
    /\ is_conversion_error e = true
    /\ ("time" = "time" -> e = KeyError "time").
Proof.
  apply (missing_column_aborts datetime fromisoformat int_of_string
           (with_input no_time_rows)
           ["timestamp"; "alloc"; "heap_alloc"; "num_goroutine"; "num_gc"; "pause_total_ns"]
           [[]; ["2025-11-02T10:00:00+08:00"; "1048576"; "0"; "12"; "3"; "1000000"]]).
  - vm_compute. reflexivity.
  - evaluate.
  - evaluate.
  - evaluate.
Defined.

Lemma short_row_aborts_witness :
  getitem (dict_row header ["2025-11-02T10:00:01+08:00"; "3145728"; "2097152"; "14"])
    "num_gc" = inr NoneVal
  /\ exists e : exn,
       run short_files = (inl e, start datetime short_files)
       /\ is_conversion_error e = true.
Proof.
  apply (short_row_aborts datetime fromisoformat int_of_string short_files header
           ["2025-11-02T10:00:01+08:00"; "3145728"; "2097152"; "14"]
           (tail short_rows) 4%nat "num_gc").
  - vm_compute. reflexivity.
  - evaluate.
  - reflexivity.
  - evaluate.
  - evaluate.
  - discriminate.
  - simpl. lia.
Defined.

Lemma surplus_fields_ignored_witness :
  same_outcome (run (with_input (header :: long_rows)))
               (run (with_input (header :: (take 6 <$> long_rows)))).
Proof.
  apply (surplus_fields_ignored datetime fromisoformat int_of_string
           (with_input (header :: long_rows))
           (with_input (header :: (take 6 <$> long_rows))) header long_rows).
  - discriminate.
  - vm_compute. reflexivity.
  - vm_compute. reflexivity.
Defined.

Lemma column_order_irrelevant_witness :
  DictReader (header :: tail good_rows) = DictReader (reordered_header :: reordered_rows)
  /\ same_outcome (run good_files) (run (with_input (reordered_header :: reordered_rows))).
Proof.
  apply (column_order_irrelevant datetime fromisoformat int_of_string).
  - vm_compute. reflexivity.
  - vm_compute. reflexivity.
  - evaluate.
  - evaluate.
Defined.
End MoreSampleRuns.
